(** * fosphor: the OpenGL part (lib/fosphor/gl.c)

    A shallow embedding of [gl.c]: the renderer state, its deferred
    initialisation, construction and teardown, the shared-handle accessor
    and the per-frame draw sequence.  Every call that leaves the module
    (OpenGL, the font renderer, the colormap subsystem, libc) is recorded
    as an event, so that a run of a function yields the sequence of calls
    it issued together with its effect on the objects that stay resident. *)

From stdpp Require Import base gmap sets list strings.
From Stdlib Require Import ZArith QArith Lia.
From Stdlib Require Import Floats.SpecFloat.

Open Scope Z_scope.

(** ** Single-precision arithmetic

    C [float] is IEEE-754 binary32: 24 bits of precision, exponents below
    128, round to nearest even.  The operations are those of the Standard
    Library's executable specification, evaluated one C operator at a time
    (no excess precision, no contraction). *)

Module F32.

Definition t := spec_float.

Definition prec : Z := 24.
Definition emax : Z := 128.

Definition add (x y : t) : t := SFadd prec emax x y.
Definition sub (x y : t) : t := SFsub prec emax x y.
Definition mul (x y : t) : t := SFmul prec emax x y.
Definition div (x y : t) : t := SFdiv prec emax x y.

(** [(float)z] for an integer [z]. *)
Definition of_Z (z : Z) : t := binary_normalize prec emax z 0 false.

(** The literal [n/d] of the source text ([0.5f] is [lit 1 2], [0.33f] is
    [lit 33 100]): both integers are exact in binary32, so the correctly
    rounded quotient is the value the compiler gives the literal. *)
Definition lit (n d : Z) : t := div (of_Z n) (of_Z d).

Definition signed (s : bool) (m : positive) : Z :=
  if s then Z.neg m else Z.pos m.

(** Largest integer not above [(-1)^s * m * 2^e]. *)
Definition floorZ (s : bool) (m : positive) (e : Z) : Z :=
  match e with
  | Z.neg p => signed s m / 2 ^ Z.pos p
  | _ => signed s m * 2 ^ e
  end.

Definition ceilZ (s : bool) (m : positive) (e : Z) : Z :=
  - floorZ (negb s) m e.

(** Integer part, rounding toward zero. *)
Definition truncZ (s : bool) (m : positive) (e : Z) : Z :=
  match e with
  | Z.neg p => Z.quot (signed s m) (2 ^ Z.pos p)
  | _ => signed s m * 2 ^ e
  end.

(** [floorf] and [ceilf] of <math.h>: zeros, infinities and NaN are
    returned unchanged, a zero result keeps the sign of the argument. *)
Definition floorf (x : t) : t :=
  match x with
  | S754_finite s m e => binary_normalize prec emax (floorZ s m e) 0 s
  | _ => x
  end.

Definition ceilf (x : t) : t :=
  match x with
  | S754_finite s m e => binary_normalize prec emax (ceilZ s m e) 0 s
  | _ => x
  end.

(** The exact rational value of a finite number (0 for the others). *)
Definition to_Q (x : t) : Q :=
  match x with
  | S754_finite s m e =>
      match e with
      | Z.neg p => Qmake (signed s m) (2 ^ p)%positive
      | _ => inject_Z (signed s m * 2 ^ e)
      end
  | _ => 0%Q
  end.

Definition opp (x : t) : t := SFopp x.

Definition zero : t := S754_zero false.
Definition one : t := of_Z 1.
Definition half : t := lit 1 2.

End F32.

Abbreviation f32 := F32.t.

Declare Scope f32_scope.
Delimit Scope f32_scope with f32.
Infix "+" := F32.add : f32_scope.
Infix "-" := F32.sub : f32_scope.
Infix "*" := F32.mul : f32_scope.
Infix "/" := F32.div : f32_scope.

(** ** C [int] arithmetic

    [int] is 32 bits wide, two's complement; results are reduced into
    range. *)

Definition INT_MIN : Z := - 2 ^ 31.
Definition INT_MAX : Z := 2 ^ 31 - 1.

Definition wrap32 (z : Z) : Z := (z + 2 ^ 31) mod 2 ^ 32 - 2 ^ 31.

Definition int_add (a b : Z) : Z := wrap32 (a + b).
Definition int_sub (a b : Z) : Z := wrap32 (a - b).
Definition int_mul (a b : Z) : Z := wrap32 (a * b).

(** [(int)x] for a float [x]: the integer part.  C leaves the conversion
    undefined when the integer part does not fit (or [x] is not finite);
    the model returns [INT_MIN] there, as the conversion instruction of
    x86 does. *)
Definition int_of_float (x : f32) : Z :=
  match x with
  | S754_zero _ => 0
  | S754_finite s m e =>
      let z := F32.truncZ s m e in
      if (INT_MIN <=? z) && (z <=? INT_MAX) then z else INT_MIN
  | _ => INT_MIN
  end.

(** [-ENOMEM] and [-ENOENT] of <errno.h>. *)
Definition ENOENT : Z := 2.
Definition ENOMEM : Z := 12.

(** ** Constants of the headers

    [private.h], [fosphor.h] and [gl.h] give the FFT length, the render
    option bits and the ids of the shared objects.  The development is
    parametric in their values. *)

Class Headers : Type := {
  FOSPHOR_FFT_LEN : Z;
  FRO_LIVE : Z;
  FRO_MAX_HOLD : Z;
  FRO_HISTO : Z;
  FRO_WATERFALL : Z;
  FRO_LABEL_FREQ : Z;
  FRO_LABEL_PWR : Z;
  GL_ID_TEX_WATERFALL : Z;
  GL_ID_TEX_HISTOGRAM : Z;
  GL_ID_VBO_SPECTRUM : Z;
}.

(** A choice of these constants to evaluate on: 1024 bins, one bit per
    render option, ids numbered from 0 as an [enum] without initialisers
    numbers them. *)
Definition fosphor_headers : Headers := {|
  FOSPHOR_FFT_LEN := 1024;
  FRO_LIVE := 1;
  FRO_MAX_HOLD := 2;
  FRO_HISTO := 4;
  FRO_WATERFALL := 8;
  FRO_LABEL_FREQ := 16;
  FRO_LABEL_PWR := 32;
  GL_ID_TEX_WATERFALL := 0;
  GL_ID_TEX_HISTOGRAM := 1;
  GL_ID_VBO_SPECTRUM := 2;
|}.

(** ** Data *)

(** [struct fosphor_gl_state].  Pointers are addresses, 0 for NULL; GL
    names are [GLuint], 0 for "no object". *)
Record fosphor_gl_state : Type := {
  init_complete : Z;
  font : Z;
  cmap_ctx : Z;
  cmap_waterfall : Z;
  cmap_histogram : Z;
  tex_waterfall : Z;
  tex_histogram : Z;
  vbo_spectrum : Z;
}.

(** [memset(gl, 0, sizeof(struct fosphor_gl_state))]. *)
Definition gl_state_zero : fosphor_gl_state := {|
  init_complete := 0; font := 0; cmap_ctx := 0;
  cmap_waterfall := 0; cmap_histogram := 0;
  tex_waterfall := 0; tex_histogram := 0; vbo_spectrum := 0;
|}.

Record power_cfg : Type := {
  db_ref : Z;
  db_per_div : Z;
  scale : f32;
  offset : f32;
}.

Record frequency_cfg : Type := {
  center : spec_float;
  span : spec_float;
}.

(** The part of [struct fosphor] this file reads and writes.  [gl] is the
    pointer [self->gl]: [None] is NULL, [Some g] is the heap block with
    contents [g]. *)
Record fosphor : Type := {
  gl : option fosphor_gl_state;
  power : power_cfg;
  frequency : frequency_cfg;
}.

Definition set_gl (self : fosphor) (p : option fosphor_gl_state) : fosphor :=
  {| gl := p; power := power self; frequency := frequency self |}.

(** The part of [struct fosphor_render] that [fosphor_gl_draw] reads.
    Two-element arrays are pairs. *)
Record fosphor_render : Type := {
  options : Z;
  freq_start : f32;
  freq_stop : f32;
  wf_span : f32;
  _wf_pos : Z;
  _x : f32 * f32;
  _x_div : f32;
  _x_label : f32;
  _y_wf : f32 * f32;
  _y_histo : f32 * f32;
  _y_histo_div : f32;
  _y_label : f32;
}.

(** [struct freq_axis] as [freq_axis_build] leaves it. *)
Record freq_axis : Type := {
  axis_center : spec_float;
  axis_span : spec_float;
}.

(** ** Calls that leave the module *)

Inductive GLenum : Type :=
  | GL_TEXTURE_2D | GL_ARRAY_BUFFER
  | GL_TEXTURE_MAG_FILTER | GL_TEXTURE_MIN_FILTER
  | GL_TEXTURE_WRAP_S | GL_TEXTURE_WRAP_T
  | GL_LINEAR | GL_REPEAT | GL_CLAMP_TO_EDGE
  | GL_R32F | GL_RED | GL_FLOAT
  | GL_WRITE_ONLY | GL_DYNAMIC_DRAW
  | GL_QUADS | GL_LINES | GL_LINE_STRIP
  | GL_BLEND | GL_SRC_ALPHA | GL_ONE_MINUS_SRC_ALPHA | GL_LINE_SMOOTH
  | GL_VERTEX_ARRAY
  | GL_CMAP_MODE_BILINEAR
  | GLF_FLG_LCD | GLF_RIGHT | GLF_CENTER.

(** The two colormap generators of [gl_cmap_gen.h]. *)
Inductive cmap_gen : Type :=
  | fosphor_gl_cmap_waterfall
  | fosphor_gl_cmap_histogram.

(** What a [glf_printf] prints: ["%d"] of an [int], or ["%s"] of the
    buffer [freq_axis_render] filled for a division. *)
Inductive glf_text : Type :=
  | text_int (v : Z)
  | text_axis (axis : freq_axis) (division : Z).

Inductive call : Type :=
  (* libc *)
  | malloc (ok : bool)
  | free
  | memset_mapped (size : Z)
  (* texture and buffer objects; [glGen*] and [glDelete*] with n = 1 *)
  | glGenTextures (name : Z)
  | glBindTexture (target : GLenum) (tex : Z)
  | glTexParameteri (target pname param : GLenum)
  | glTexImage2D (target : GLenum) (level : Z) (internal : GLenum)
      (width height border : Z) (format type : GLenum)
  | glTexSubImage2D (target : GLenum) (level x y cw ch : Z)
      (format type : GLenum)
  | glDeleteTextures (name : Z)
  | glGenBuffers (name : Z)
  | glBindBuffer (target : GLenum) (buf : Z)
  | glBufferData (target : GLenum) (size : Z) (usage : GLenum)
  | glMapBuffer (target access : GLenum) (mapped : bool)
  | glUnmapBuffer (target : GLenum)
  | glDeleteBuffers (name : Z)
  (* font renderer, resources, colormaps *)
  | glf_alloc (size : Z) (flags : GLenum) (result : Z)
  | resource_get (name : string) (found : option Z)
  | glf_load_face_mem (font : Z) (len : Z) (rv : Z)
  | glf_free (font : Z)
  | fosphor_gl_cmap_init (result : Z)
  | fosphor_gl_cmap_generate (gen : cmap_gen) (n : Z) (rv : Z) (id : Z)
  | fosphor_gl_cmap_release (ctx : Z)
  | fosphor_gl_cmap_enable (ctx tex cmap : Z) (scale offset : f32)
      (mode : GLenum)
  | fosphor_gl_cmap_disable
  | freq_axis_build (center span : spec_float)
  | freq_axis_render (axis : freq_axis) (division : Z)
  | glf_begin (font : Z) (r g b : f32)
  | glf_printf (font : Z) (x : f32) (x_align : GLenum)
      (y : f32) (y_align : GLenum) (text : glf_text)
  | glf_end
  (* drawing *)
  | glBegin (mode : GLenum)
  | glEnd
  | glTexCoord2f (u v : f32)
  | glVertex2f (x y : f32)
  | glColor3f (r g b : f32)
  | glColor4f (r g b a : f32)
  | glPushMatrix
  | glPopMatrix
  | glTranslatef (x y z : f32)
  | glScalef (x y z : f32)
  | glVertexPointer (size : Z) (type : GLenum) (stride pointer : Z)
  | glEnable (cap : GLenum)
  | glDisable (cap : GLenum)
  | glBlendFunc (sfactor dfactor : GLenum)
  | glLineWidth (width : f32)
  | glEnableClientState (array : GLenum)
  | glDisableClientState (array : GLenum)
  | glDrawArrays (mode : GLenum) (first count : Z)
  | glFinish.

(** ** The world outside the module *)

(** How the calls that can fail turn out.  The functions below consult it
    where the C code tests a result. *)
Record environment : Type := {
  env_malloc : bool;                (* malloc returns a block *)
  env_glf_alloc : bool;             (* glf_alloc returns a font *)
  env_resource_get : option Z;      (* the length of the resource, if found *)
  env_glf_load_face_mem : Z;        (* its return value *)
  env_cmap_init : bool;             (* fosphor_gl_cmap_init returns a context *)
  env_cmap_generate : cmap_gen -> Z;  (* its return value, per generator *)
  env_map_buffer : bool;            (* glMapBuffer returns a mapping *)
}.

(** The objects that stay resident between calls: GL texture and buffer
    names in use, fonts and colormap contexts by address. *)
Record world : Type := {
  env : environment;
  textures : gset positive;
  buffers : gset positive;
  fonts : gset positive;
  cmap_ctxs : gset positive;
}.

Definition set_textures (w : world) (s : gset positive) : world :=
  {| env := env w; textures := s; buffers := buffers w;
     fonts := fonts w; cmap_ctxs := cmap_ctxs w |}.
Definition set_buffers (w : world) (s : gset positive) : world :=
  {| env := env w; textures := textures w; buffers := s;
     fonts := fonts w; cmap_ctxs := cmap_ctxs w |}.
Definition set_fonts (w : world) (s : gset positive) : world :=
  {| env := env w; textures := textures w; buffers := buffers w;
     fonts := s; cmap_ctxs := cmap_ctxs w |}.
Definition set_cmap_ctxs (w : world) (s : gset positive) : world :=
  {| env := env w; textures := textures w; buffers := buffers w;
     fonts := fonts w; cmap_ctxs := s |}.

(** A name or address is in use. *)
Definition live (name : Z) (s : gset positive) : Prop :=
  match name with
  | Z.pos p => p ∈ s
  | _ => False
  end.

(** Releasing a name; 0 and names not in use are ignored, as
    [glDeleteTextures] and [glDeleteBuffers] do. *)
Definition drop_name (name : Z) (s : gset positive) : gset positive :=
  match name with
  | Z.pos p => s ∖ {[ p ]}
  | _ => s
  end.

(** ** Computations

    A computation starts in a world and ends in a world, with the calls
    it issued in order, and either a value or the reason it stopped: a
    NULL pointer was dereferenced, or [abort()] was called. *)

Inductive crash : Type := NullDeref | Aborted.

Inductive result (A : Type) : Type :=
  | Ok (a : A)
  | Crash (c : crash).
Arguments Ok {A} a.
Arguments Crash {A} c.

Record run (A : Type) : Type := Run {
  outcome : result A;
  after : world;
  calls : list call;
}.
Arguments Run {A} outcome after calls.
Arguments outcome {A} r.
Arguments after {A} r.
Arguments calls {A} r.

Definition M (A : Type) : Type := world -> run A.

Definition ret {A : Type} (a : A) : M A :=
  fun w => Run (Ok a) w [].

Definition bind {A B : Type} (m : M A) (k : A -> M B) : M B :=
  fun w =>
    let r := m w in
    match outcome r with
    | Ok a =>
        let r' := k a (after r) in
        Run (outcome r') (after r') (calls r ++ calls r')
    | Crash c => Run (Crash c) (after r) (calls r)
    end.

Declare Scope comp_scope.
Delimit Scope comp_scope with comp.
Notation "x <- m ;; k" := (bind m (fun x => k))
  (at level 100, m at next level, right associativity) : comp_scope.
Notation "m ;; k" := (bind m (fun _ => k))
  (at level 100, right associativity) : comp_scope.
Open Scope comp_scope.

Definition stop {A : Type} (c : crash) : M A :=
  fun w => Run (Crash c) w [].

(** A call with no result the module looks at. *)
Definition emit (c : call) : M unit :=
  fun w => Run (Ok tt) w [c].

(** [p->field] for a pointer [p] to the renderer state. *)
Definition deref (p : option fosphor_gl_state) : M fosphor_gl_state :=
  match p with
  | Some g => ret g
  | None => stop NullDeref
  end.

Fixpoint for_each {A : Type} (l : list A) (body : A -> M unit) : M unit :=
  match l with
  | [] => ret tt
  | a :: l' => body a ;; for_each l' body
  end.

(** C truth of an [int]. *)
Definition test (z : Z) : bool := negb (z =? 0).

(** *** GL objects *)

Definition do_glGenTextures : M Z :=
  fun w =>
    let n := fresh (textures w) in
    Run (Ok (Z.pos n)) (set_textures w ({[ n ]} ∪ textures w))
        [glGenTextures (Z.pos n)].

Definition do_glDeleteTextures (name : Z) : M unit :=
  fun w => Run (Ok tt) (set_textures w (drop_name name (textures w)))
               [glDeleteTextures name].

Definition do_glGenBuffers : M Z :=
  fun w =>
    let n := fresh (buffers w) in
    Run (Ok (Z.pos n)) (set_buffers w ({[ n ]} ∪ buffers w))
        [glGenBuffers (Z.pos n)].

Definition do_glDeleteBuffers (name : Z) : M unit :=
  fun w => Run (Ok tt) (set_buffers w (drop_name name (buffers w)))
               [glDeleteBuffers name].

Definition do_glMapBuffer (target access : GLenum) : M bool :=
  fun w => Run (Ok (env_map_buffer (env w))) w
               [glMapBuffer target access (env_map_buffer (env w))].

(** *** libc, font renderer, resources, colormaps *)

(** [malloc] of the state block: whether a block is returned. *)
Definition do_malloc : M bool :=
  fun w => Run (Ok (env_malloc (env w))) w [malloc (env_malloc (env w))].

(** Modelled from the spec: [glf_alloc] (gl_font.c) is not part of the
    source.  It returns a new font handle, or NULL when it cannot
    allocate one. *)
Definition do_glf_alloc (size : Z) (flags : GLenum) : M Z :=
  fun w =>
    if env_glf_alloc (env w) then
      let p := fresh (fonts w) in
      Run (Ok (Z.pos p)) (set_fonts w ({[ p ]} ∪ fonts w))
          [glf_alloc size flags (Z.pos p)]
    else Run (Ok 0) w [glf_alloc size flags 0].

(** Modelled from the spec: [resource_get] (resource.c) is not part of the
    source.  It locates an embedded resource by name and gives its bytes
    and their length, or NULL when there is none; the model keeps the
    length. *)
Definition do_resource_get (name : string) : M (option Z) :=
  fun w => Run (Ok (env_resource_get (env w))) w
               [resource_get name (env_resource_get (env w))].

(** Modelled from the spec: [glf_load_face_mem] (gl_font.c) is not part
    of the source.  It parses the glyphs into the font it is given and
    returns 0, or a non-zero code when parsing fails. *)
Definition do_glf_load_face_mem (f len : Z) : M Z :=
  fun w => Run (Ok (env_glf_load_face_mem (env w))) w
               [glf_load_face_mem f len (env_glf_load_face_mem (env w))].

(** Modelled from the spec: [fosphor_gl_cmap_init] (gl_cmap.c) is not
    part of the source.  It returns a new colormap context, or NULL when
    the setup fails. *)
Definition do_cmap_init : M Z :=
  fun w =>
    if env_cmap_init (env w) then
      let p := fresh (cmap_ctxs w) in
      Run (Ok (Z.pos p)) (set_cmap_ctxs w ({[ p ]} ∪ cmap_ctxs w))
          [fosphor_gl_cmap_init (Z.pos p)]
    else Run (Ok 0) w [fosphor_gl_cmap_init 0].

(** Modelled from the spec: [fosphor_gl_cmap_generate] (gl_cmap.c) is not
    part of the source.  It generates one 1-D lookup texture of [n]
    entries and stores its name through the pointer it is given; the model
    has a failing call create nothing and leave the pointee ([old]) as it
    was.  The result is the return value and the pointee afterwards. *)
Definition do_cmap_generate (gen : cmap_gen) (n : Z) (old : Z) : M (Z * Z) :=
  fun w =>
    let rv := env_cmap_generate (env w) gen in
    if test rv then Run (Ok (rv, old)) w [fosphor_gl_cmap_generate gen n rv old]
    else
      let t := fresh (textures w) in
      Run (Ok (rv, Z.pos t)) (set_textures w ({[ t ]} ∪ textures w))
          [fosphor_gl_cmap_generate gen n rv (Z.pos t)].

(** Modelled from the spec: [fosphor_gl_cmap_release] (gl_cmap.c) and
    [glf_free] (gl_font.c) are not part of the source.  The spec has the
    teardown safe on a partially initialized state, so both release the
    object they are given and ignore a NULL argument. *)
Definition do_cmap_release (ctx : Z) : M unit :=
  fun w => Run (Ok tt) (set_cmap_ctxs w (drop_name ctx (cmap_ctxs w)))
               [fosphor_gl_cmap_release ctx].

Definition do_glf_free (f : Z) : M unit :=
  fun w => Run (Ok tt) (set_fonts w (drop_name f (fonts w))) [glf_free f].

(** ** The functions of gl.c *)

Definition set_init_complete (g : fosphor_gl_state) (v : Z) : fosphor_gl_state :=
  {| init_complete := v; font := font g; cmap_ctx := cmap_ctx g;
     cmap_waterfall := cmap_waterfall g; cmap_histogram := cmap_histogram g;
     tex_waterfall := tex_waterfall g; tex_histogram := tex_histogram g;
     vbo_spectrum := vbo_spectrum g |}.
Definition set_font (g : fosphor_gl_state) (v : Z) : fosphor_gl_state :=
  {| init_complete := init_complete g; font := v; cmap_ctx := cmap_ctx g;
     cmap_waterfall := cmap_waterfall g; cmap_histogram := cmap_histogram g;
     tex_waterfall := tex_waterfall g; tex_histogram := tex_histogram g;
     vbo_spectrum := vbo_spectrum g |}.
Definition set_cmap_ctx (g : fosphor_gl_state) (v : Z) : fosphor_gl_state :=
  {| init_complete := init_complete g; font := font g; cmap_ctx := v;
     cmap_waterfall := cmap_waterfall g; cmap_histogram := cmap_histogram g;
     tex_waterfall := tex_waterfall g; tex_histogram := tex_histogram g;
     vbo_spectrum := vbo_spectrum g |}.
Definition set_cmap_waterfall (g : fosphor_gl_state) (v : Z) : fosphor_gl_state :=
  {| init_complete := init_complete g; font := font g; cmap_ctx := cmap_ctx g;
     cmap_waterfall := v; cmap_histogram := cmap_histogram g;
     tex_waterfall := tex_waterfall g; tex_histogram := tex_histogram g;
     vbo_spectrum := vbo_spectrum g |}.
Definition set_cmap_histogram (g : fosphor_gl_state) (v : Z) : fosphor_gl_state :=
  {| init_complete := init_complete g; font := font g; cmap_ctx := cmap_ctx g;
     cmap_waterfall := cmap_waterfall g; cmap_histogram := v;
     tex_waterfall := tex_waterfall g; tex_histogram := tex_histogram g;
     vbo_spectrum := vbo_spectrum g |}.
Definition set_tex_waterfall (g : fosphor_gl_state) (v : Z) : fosphor_gl_state :=
  {| init_complete := init_complete g; font := font g; cmap_ctx := cmap_ctx g;
     cmap_waterfall := cmap_waterfall g; cmap_histogram := cmap_histogram g;
     tex_waterfall := v; tex_histogram := tex_histogram g;
     vbo_spectrum := vbo_spectrum g |}.
Definition set_tex_histogram (g : fosphor_gl_state) (v : Z) : fosphor_gl_state :=
  {| init_complete := init_complete g; font := font g; cmap_ctx := cmap_ctx g;
     cmap_waterfall := cmap_waterfall g; cmap_histogram := cmap_histogram g;
     tex_waterfall := tex_waterfall g; tex_histogram := v;
     vbo_spectrum := vbo_spectrum g |}.
Definition set_vbo_spectrum (g : fosphor_gl_state) (v : Z) : fosphor_gl_state :=
  {| init_complete := init_complete g; font := font g; cmap_ctx := cmap_ctx g;
     cmap_waterfall := cmap_waterfall g; cmap_histogram := cmap_histogram g;
     tex_waterfall := tex_waterfall g; tex_histogram := tex_histogram g;
     vbo_spectrum := v |}.

(** The values [0, 16, 32, ...] below [n]: those a loop
    [for (x=0; x<n; x+=16)] gives its variable. *)
Definition tile_starts (n : Z) : list Z :=
  (fun k : nat => 16 * Z.of_nat k) <$> seq 0 (Z.to_nat ((n + 15) / 16)).

Section Gl.

Context {hdr : Headers}.

(** *** Helpers / Internal API *)

Definition gl_tex2d_float_clear (tex_id width height : Z) : M unit :=
  emit (glBindTexture GL_TEXTURE_2D tex_id) ;;
  for_each (tile_starts height) (fun y =>
    for_each (tile_starts width) (fun x =>
      let cw := if x + 16 >? width then width - x else 16 in
      let ch := if y + 16 >? height then height - y else 16 in
      emit (glTexSubImage2D GL_TEXTURE_2D 0 x y cw ch GL_RED GL_FLOAT))).

Definition gl_vbo_clear (vbo_id size : Z) : M unit :=
  emit (glBindBuffer GL_ARRAY_BUFFER vbo_id) ;;
  ptr <- do_glMapBuffer GL_ARRAY_BUFFER GL_WRITE_ONLY ;;
  if negb ptr then stop Aborted
  else
    emit (memset_mapped size) ;;
    emit (glUnmapBuffer GL_ARRAY_BUFFER).

(** The block [self->gl] points to is updated in place; the result is
    [self] with the block as the function leaves it. *)
Definition gl_deferred_init (self : fosphor) : M fosphor :=
  g <- deref (gl self) ;;
  (* Prevent double init *)
  if test (init_complete g) then ret self
  else
    let g := set_init_complete g 1 in
    (* Waterfall texture (FFT_LEN * 1024) *)
    t <- do_glGenTextures ;;
    let g := set_tex_waterfall g t in
    emit (glBindTexture GL_TEXTURE_2D (tex_waterfall g)) ;;
    emit (glTexParameteri GL_TEXTURE_2D GL_TEXTURE_MAG_FILTER GL_LINEAR) ;;
    emit (glTexParameteri GL_TEXTURE_2D GL_TEXTURE_MIN_FILTER GL_LINEAR) ;;
    emit (glTexParameteri GL_TEXTURE_2D GL_TEXTURE_WRAP_S GL_REPEAT) ;;
    emit (glTexParameteri GL_TEXTURE_2D GL_TEXTURE_WRAP_T GL_REPEAT) ;;
    emit (glTexImage2D GL_TEXTURE_2D 0 GL_R32F FOSPHOR_FFT_LEN 1024 0
            GL_RED GL_FLOAT) ;;
    gl_tex2d_float_clear (tex_waterfall g) FOSPHOR_FFT_LEN 1024 ;;
    (* Histogram texture (FFT_LEN * 128) *)
    t <- do_glGenTextures ;;
    let g := set_tex_histogram g t in
    emit (glBindTexture GL_TEXTURE_2D (tex_histogram g)) ;;
    emit (glTexParameteri GL_TEXTURE_2D GL_TEXTURE_MAG_FILTER GL_LINEAR) ;;
    emit (glTexParameteri GL_TEXTURE_2D GL_TEXTURE_MIN_FILTER GL_LINEAR) ;;
    emit (glTexParameteri GL_TEXTURE_2D GL_TEXTURE_WRAP_S GL_REPEAT) ;;
    emit (glTexParameteri GL_TEXTURE_2D GL_TEXTURE_WRAP_T GL_CLAMP_TO_EDGE) ;;
    emit (glTexImage2D GL_TEXTURE_2D 0 GL_R32F FOSPHOR_FFT_LEN 128 0
            GL_RED GL_FLOAT) ;;
    gl_tex2d_float_clear (tex_histogram g) FOSPHOR_FFT_LEN 128 ;;
    (* Spectrum VBO (2 * FFT_LEN, half for live, half for 'hold') *)
    b <- do_glGenBuffers ;;
    let g := set_vbo_spectrum g b in
    emit (glBindBuffer GL_ARRAY_BUFFER (vbo_spectrum g)) ;;
    let len := wrap32 (2 * 4 * 2 * FOSPHOR_FFT_LEN) in
    emit (glBufferData GL_ARRAY_BUFFER len GL_DYNAMIC_DRAW) ;;
    gl_vbo_clear (vbo_spectrum g) len ;;
    ret (set_gl self (Some g)).

(** *** Exposed API *)

Definition fosphor_gl_release (self : fosphor) : M fosphor :=
  match gl self with
  | None => ret self                      (* Safety *)
  | Some g =>
      (* Release all *)
      do_glDeleteBuffers (vbo_spectrum g) ;;
      do_glDeleteTextures (tex_histogram g) ;;
      do_glDeleteTextures (tex_waterfall g) ;;
      do_glDeleteTextures (cmap_histogram g) ;;
      do_glDeleteTextures (cmap_waterfall g) ;;
      do_cmap_release (cmap_ctx g) ;;
      do_glf_free (font g) ;;
      (* Release structure *)
      emit free ;;
      (* Nothing left *)
      ret (set_gl self None)
  end.

(** The [error:] label of [fosphor_gl_init]. *)
Definition init_error (self : fosphor) (rv : Z) : M (Z * fosphor) :=
  self <- fosphor_gl_release self ;;
  ret (rv, self).

Definition fosphor_gl_init (self : fosphor) : M (Z * fosphor) :=
  (* Allocate structure *)
  ok <- do_malloc ;;
  if negb ok then ret (- ENOMEM, self)
  else
    let g := gl_state_zero in
    (* Font *)
    f <- do_glf_alloc 8 GLF_FLG_LCD ;;
    let g := set_font g f in
    if negb (test (font g)) then init_error (set_gl self (Some g)) (- ENOMEM)
    else
      font_data <- do_resource_get "DroidSansMonoDotted.ttf" ;;
      match font_data with
      | None => init_error (set_gl self (Some g)) (- ENOENT)
      | Some len =>
          rv <- do_glf_load_face_mem (font g) len ;;
          if test rv then init_error (set_gl self (Some g)) rv
          else
            (* Color mapping *)
            c <- do_cmap_init ;;
            let g := set_cmap_ctx g c in
            let rv := if cmap_ctx g =? 0 then 1 else 0 in
            r <- do_cmap_generate fosphor_gl_cmap_waterfall 256
                   (cmap_waterfall g) ;;
            let rv := Z.lor rv (fst r) in
            let g := set_cmap_waterfall g (snd r) in
            r <- do_cmap_generate fosphor_gl_cmap_histogram 256
                   (cmap_histogram g) ;;
            let rv := Z.lor rv (fst r) in
            let g := set_cmap_histogram g (snd r) in
            if test rv then init_error (set_gl self (Some g)) rv
            else ret (0, set_gl self (Some g))     (* Done *)
      end.

Definition fosphor_gl_get_shared_id (self : fosphor) (id : Z)
  : M (Z * fosphor) :=
  (* CL is not sufficiently booted to complete the GL init
     in a CL context *)
  self <- gl_deferred_init self ;;
  g <- deref (gl self) ;;
  (* Select ID to return *)
  if id =? GL_ID_TEX_WATERFALL then ret (tex_waterfall g, self)
  else if id =? GL_ID_TEX_HISTOGRAM then ret (tex_histogram g, self)
  else if id =? GL_ID_VBO_SPECTRUM then ret (vbo_spectrum g, self)
  else ret (0, self).

(** [render->options & mask], as a condition. *)
Definition has (render : fosphor_render) (mask : Z) : bool :=
  test (Z.land (options render) mask).

Definition when (b : bool) (m : M unit) : M unit :=
  if b then m else ret tt.

(** Texel width and displayed bin width. *)
Definition texel_width : f32 := (F32.one / F32.of_Z FOSPHOR_FFT_LEN)%f32.
Definition bin_width : f32 :=
  (F32.one / F32.of_Z (int_sub FOSPHOR_FFT_LEN 1))%f32.

(** The values of [i] in [for (i=0; i<11; i++)]. *)
Definition grid_indices : list Z := Z.of_nat <$> seq 0 11.

(** "Draw waterfall" *)
Definition draw_waterfall (self : fosphor) (render : fosphor_render)
  : M unit :=
  let tw := texel_width in
  when (has render FRO_WATERFALL) (
    let x0 := fst (_x render) in
    let x1 := snd (_x render) in
    let y0 := fst (_y_wf render) in
    let y1 := snd (_y_wf render) in
    let u0 := (F32.half + tw + ((F32.one - tw) * freq_start render))%f32 in
    let u1 := (F32.half + tw + ((F32.one - tw) * freq_stop render))%f32 in
    let v1 := (F32.of_Z (_wf_pos render) / F32.of_Z 1024)%f32 in
    let v0 := (v1 - wf_span render)%f32 in
    g <- deref (gl self) ;;
    emit (fosphor_gl_cmap_enable (cmap_ctx g)
            (tex_waterfall g) (cmap_waterfall g)
            (scale (power self)) (offset (power self))
            GL_CMAP_MODE_BILINEAR) ;;
    emit (glBegin GL_QUADS) ;;
    emit (glTexCoord2f u0 v0) ;; emit (glVertex2f x0 y0) ;;
    emit (glTexCoord2f u1 v0) ;; emit (glVertex2f x1 y0) ;;
    emit (glTexCoord2f u1 v1) ;; emit (glVertex2f x1 y1) ;;
    emit (glTexCoord2f u0 v1) ;; emit (glVertex2f x0 y1) ;;
    emit glEnd ;;
    emit fosphor_gl_cmap_disable).

(** "Draw histogram", with its [else if] branch. *)
Definition draw_histogram (self : fosphor) (render : fosphor_render)
  : M unit :=
  let tw := texel_width in
  if has render FRO_HISTO then
    let x0 := fst (_x render) in
    let x1 := snd (_x render) in
    let y0 := fst (_y_histo render) in
    let y1 := snd (_y_histo render) in
    let u0 := (F32.half + tw + ((F32.one - tw) * freq_start render))%f32 in
    let u1 := (F32.half + tw + ((F32.one - tw) * freq_stop render))%f32 in
    let v0 := F32.zero in
    let v1 := F32.one in
    g <- deref (gl self) ;;
    emit (fosphor_gl_cmap_enable (cmap_ctx g)
            (tex_histogram g) (cmap_histogram g)
            (F32.lit 11 10) F32.zero GL_CMAP_MODE_BILINEAR) ;;
    emit (glBegin GL_QUADS) ;;
    emit (glTexCoord2f u0 v0) ;; emit (glVertex2f x0 y0) ;;
    emit (glTexCoord2f u1 v0) ;; emit (glVertex2f x1 y0) ;;
    emit (glTexCoord2f u1 v1) ;; emit (glVertex2f x1 y1) ;;
    emit (glTexCoord2f u0 v1) ;; emit (glVertex2f x0 y1) ;;
    emit glEnd ;;
    emit fosphor_gl_cmap_disable
  else if has render (Z.lor FRO_LIVE FRO_MAX_HOLD) then
    let x0 := fst (_x render) in
    let x1 := snd (_x render) in
    let y0 := fst (_y_histo render) in
    let y1 := snd (_y_histo render) in
    emit (glColor3f F32.zero F32.zero (F32.lit 1 10)) ;;
    emit (glBegin GL_QUADS) ;;
    emit (glVertex2f x0 y0) ;;
    emit (glVertex2f x1 y0) ;;
    emit (glVertex2f x1 y1) ;;
    emit (glVertex2f x0 y1) ;;
    emit glEnd
  else ret tt.

(** "Select end-points" *)
Definition spectrum_idx0 (render : fosphor_render) : Z :=
  int_add 1 (int_of_float (F32.ceilf
    (freq_start render * F32.of_Z (int_sub FOSPHOR_FFT_LEN 1) - F32.half)%f32)).
Definition spectrum_idx1 (render : fosphor_render) : Z :=
  int_add 1 (int_of_float (F32.floorf
    (freq_stop render * F32.of_Z (int_sub FOSPHOR_FFT_LEN 1) - F32.half)%f32)).

(** "Draw spectrum" *)
Definition draw_spectrum (self : fosphor) (render : fosphor_render)
  : M unit :=
  let tw := texel_width in
  let bw := bin_width in
  when (has render (Z.lor FRO_LIVE FRO_MAX_HOLD)) (
    let idx0 := spectrum_idx0 render in
    let idx1 := spectrum_idx1 render in
    let len := int_add (int_sub idx1 idx0) 1 in
    (* Setup *)
    emit glPushMatrix ;;
    (* Screen position scaling *)
    emit (glTranslatef (fst (_x render)) (fst (_y_histo render)) F32.zero) ;;
    emit (glScalef (snd (_x render) - fst (_x render))%f32
            (snd (_y_histo render) - fst (_y_histo render))%f32 F32.one) ;;
    (* Power offset / scaling *)
    emit (glScalef F32.one (scale (power self)) F32.one) ;;
    emit (glTranslatef F32.zero (offset (power self)) F32.zero) ;;
    (* Spectrum range selection *)
    emit (glScalef (F32.one / (freq_stop render - freq_start render))%f32
            F32.one F32.one) ;;
    emit (glTranslatef (F32.opp (freq_start render)) F32.zero F32.zero) ;;
    (* Map the center of each N-1 bins *)
    emit (glTranslatef (F32.half * bw)%f32 F32.zero F32.zero) ;;
    emit (glScalef (F32.one - bw)%f32 F32.one F32.one) ;;
    (* Spectrum x scaling to [0.0 -> 1.0] range *)
    emit (glTranslatef F32.half F32.zero F32.zero) ;;
    emit (glScalef (F32.half / (F32.one - F32.of_Z 2 * tw))%f32
            F32.one F32.one) ;;
    (* GL state setup *)
    g <- deref (gl self) ;;
    emit (glBindBuffer GL_ARRAY_BUFFER (vbo_spectrum g)) ;;
    emit (glVertexPointer 2 GL_FLOAT 0 0) ;;
    emit (glEnable GL_BLEND) ;;
    emit (glBlendFunc GL_SRC_ALPHA GL_ONE_MINUS_SRC_ALPHA) ;;
    emit (glEnable GL_LINE_SMOOTH) ;;
    emit (glLineWidth F32.one) ;;
    (* Live *)
    when (has render FRO_LIVE) (
      emit (glColor4f F32.one F32.one F32.one (F32.lit 3 4)) ;;
      emit (glEnableClientState GL_VERTEX_ARRAY) ;;
      emit (glDrawArrays GL_LINE_STRIP idx0 len) ;;
      emit (glDisableClientState GL_VERTEX_ARRAY)) ;;
    (* Max hold *)
    when (has render FRO_MAX_HOLD) (
      emit (glColor4f F32.one F32.zero F32.zero (F32.lit 3 4)) ;;
      emit (glEnableClientState GL_VERTEX_ARRAY) ;;
      emit (glDrawArrays GL_LINE_STRIP (int_add idx0 FOSPHOR_FFT_LEN) len) ;;
      emit (glDisableClientState GL_VERTEX_ARRAY)) ;;
    (* Cleanup *)
    emit (glDisable GL_BLEND) ;;
    emit glPopMatrix).

(** [xv_ofs] of the grid loop. *)
Definition xv_ofs (i : Z) : f32 :=
  if i =? 0 then F32.of_Z 5
  else if i =? 10 then F32.opp (F32.of_Z 5)
  else F32.zero.

(** One turn of the grid loop. *)
Definition draw_grid_line (self : fosphor) (render : fosphor_render)
    (axis : freq_axis) (i : Z) : M unit :=
  let xv := (fst (_x render) + F32.of_Z i * _x_div render)%f32 in
  let yv := (fst (_y_histo render) + F32.of_Z i * _y_histo_div render)%f32 in
  emit (glEnable GL_BLEND) ;;
  emit (glBlendFunc GL_SRC_ALPHA GL_ONE_MINUS_SRC_ALPHA) ;;
  emit (glColor4f F32.zero F32.zero F32.zero F32.half) ;;
  emit (glBegin GL_LINES) ;;
  emit (glVertex2f (xv + F32.half) (fst (_y_histo render) + F32.half))%f32 ;;
  emit (glVertex2f (xv + F32.half) (snd (_y_histo render) - F32.half))%f32 ;;
  emit glEnd ;;
  emit (glBegin GL_LINES) ;;
  emit (glVertex2f (fst (_x render) + F32.half) (yv + F32.half))%f32 ;;
  emit (glVertex2f (snd (_x render) - F32.half) (yv + F32.half))%f32 ;;
  emit glEnd ;;
  emit (glDisable GL_BLEND) ;;
  g <- deref (gl self) ;;
  emit (glf_begin (font g) F32.one F32.one (F32.lit 33 100)) ;;
  when (has render FRO_LABEL_PWR) (
    emit (glf_printf (font g) (_x_label render) GLF_RIGHT yv GLF_CENTER
            (text_int (int_sub (db_ref (power self))
                         (int_mul (int_sub 10 i) (db_per_div (power self))))))) ;;
  when (has render FRO_LABEL_FREQ) (
    emit (freq_axis_render axis (int_sub i 5)) ;;
    emit (glf_printf (font g) (xv + xv_ofs i)%f32 GLF_CENTER
            (_y_label render) GLF_CENTER
            (text_axis axis (int_sub i 5)))) ;;
  emit glf_end.

(** "Draw grid" *)
Definition draw_grid (self : fosphor) (render : fosphor_render)
    (axis : freq_axis) : M unit :=
  when (has render (Z.lor (Z.lor FRO_LIVE FRO_MAX_HOLD) FRO_HISTO))
    (for_each grid_indices (draw_grid_line self render axis)).

Definition fosphor_gl_draw (self : fosphor) (render : fosphor_render)
  : M unit :=
  draw_waterfall self render ;;
  draw_histogram self render ;;
  draw_spectrum self render ;;
  (* Setup frequency axis *)
  emit (freq_axis_build (center (frequency self)) (span (frequency self))) ;;
  let axis := {| axis_center := center (frequency self);
                 axis_span := span (frequency self) |} in
  draw_grid self render axis ;;
  (* Ensure GL is done *)
  emit glFinish.

End Gl.

(** A sequence of calls to the accessor, as a client issues them: the
    handles returned, in order, and the renderer afterwards. *)
Fixpoint get_shared_ids {hdr : Headers} (self : fosphor) (ids : list Z)
  : M (list Z * fosphor) :=
  match ids with
  | [] => ret ([], self)
  | id :: ids' =>
      r <- fosphor_gl_get_shared_id self id ;;
      rs <- get_shared_ids (snd r) ids' ;;
      ret (fst r :: fst rs, snd rs)
  end.

(** ** What a sequence of calls draws *)

(** The vertex-array draws: mode, first vertex, vertex count. *)
Fixpoint draw_arrays (tr : list call) : list (GLenum * Z * Z) :=
  match tr with
  | [] => []
  | glDrawArrays mode first count :: tr' =>
      (mode, first, count) :: draw_arrays tr'
  | _ :: tr' => draw_arrays tr'
  end.

(** How many completion barriers were issued. *)
Fixpoint count_finish (tr : list call) : nat :=
  match tr with
  | [] => O
  | glFinish :: tr' => S (count_finish tr')
  | _ :: tr' => count_finish tr'
  end.

(** The texture coordinates issued, each with the texture the colormap
    stage samples at that point ([None] outside the stage). *)
Fixpoint tex_coords_from (cmap : option Z) (tr : list call)
  : list (option Z * f32 * f32) :=
  match tr with
  | [] => []
  | fosphor_gl_cmap_enable _ tex _ _ _ _ :: tr' => tex_coords_from (Some tex) tr'
  | fosphor_gl_cmap_disable :: tr' => tex_coords_from None tr'
  | glTexCoord2f u v :: tr' => (cmap, u, v) :: tex_coords_from cmap tr'
  | _ :: tr' => tex_coords_from cmap tr'
  end.

Definition tex_coords (tr : list call) : list (option Z * f32 * f32) :=
  tex_coords_from None tr.

(** The layers of a frame, in the order they are drawn: a quad sampled
    from a texture through the colormap stage, a quad in a flat colour, a
    polyline from a first vertex, a grid line, a label. *)
Inductive layer : Type :=
  | textured_quad (tex : Z)
  | flat_quad
  | polyline (first : Z)
  | grid_line
  | label.

Fixpoint layers_from (cmap : option Z) (tr : list call) : list layer :=
  match tr with
  | [] => []
  | fosphor_gl_cmap_enable _ tex _ _ _ _ :: tr' => layers_from (Some tex) tr'
  | fosphor_gl_cmap_disable :: tr' => layers_from None tr'
  | glBegin GL_QUADS :: tr' =>
      match cmap with
      | Some tex => textured_quad tex
      | None => flat_quad
      end :: layers_from cmap tr'
  | glBegin GL_LINES :: tr' => grid_line :: layers_from cmap tr'
  | glDrawArrays GL_LINE_STRIP first _ :: tr' =>
      polyline first :: layers_from cmap tr'
  | glf_printf _ _ _ _ _ _ :: tr' => label :: layers_from cmap tr'
  | _ :: tr' => layers_from cmap tr'
  end.

Definition layers (tr : list call) : list layer := layers_from None tr.

(** The segments drawn as [GL_LINES], by their two end points. *)
Fixpoint line_segments (tr : list call) : list ((f32 * f32) * (f32 * f32)) :=
  match tr with
  | [] => []
  | glBegin GL_LINES :: glVertex2f x0 y0 :: glVertex2f x1 y1 :: glEnd :: tr' =>
      ((x0, y0), (x1, y1)) :: line_segments tr'
  | _ :: tr' => line_segments tr'
  end.

(** The labels printed: position, alignment and text. *)
Fixpoint labels (tr : list call)
  : list (f32 * GLenum * f32 * GLenum * glf_text) :=
  match tr with
  | [] => []
  | glf_printf _ x xa y ya text :: tr' => (x, xa, y, ya, text) :: labels tr'
  | _ :: tr' => labels tr'
  end.

(** ** What a sequence of calls creates and destroys *)

Inductive object : Type :=
  | obj_state                    (* the block of [struct fosphor_gl_state] *)
  | obj_font (p : Z)
  | obj_cmap_ctx (p : Z)
  | obj_texture (name : Z)
  | obj_buffer (name : Z).

Definition if_nonzero (z : Z) (o : object) : list object :=
  if z =? 0 then [] else [o].

Fixpoint created (tr : list call) : list object :=
  match tr with
  | [] => []
  | malloc true :: tr' => obj_state :: created tr'
  | glf_alloc _ _ p :: tr' => if_nonzero p (obj_font p) ++ created tr'
  | fosphor_gl_cmap_init p :: tr' => if_nonzero p (obj_cmap_ctx p) ++ created tr'
  | fosphor_gl_cmap_generate _ _ rv id :: tr' =>
      (if rv =? 0 then [obj_texture id] else []) ++ created tr'
  | glGenTextures name :: tr' => obj_texture name :: created tr'
  | glGenBuffers name :: tr' => obj_buffer name :: created tr'
  | _ :: tr' => created tr'
  end.

Fixpoint destroyed (tr : list call) : list object :=
  match tr with
  | [] => []
  | free :: tr' => obj_state :: destroyed tr'
  | glf_free p :: tr' => if_nonzero p (obj_font p) ++ destroyed tr'
  | fosphor_gl_cmap_release p :: tr' =>
      if_nonzero p (obj_cmap_ctx p) ++ destroyed tr'
  | glDeleteTextures name :: tr' =>
      if_nonzero name (obj_texture name) ++ destroyed tr'
  | glDeleteBuffers name :: tr' =>
      if_nonzero name (obj_buffer name) ++ destroyed tr'
  | _ :: tr' => destroyed tr'
  end.

(** The uploads of the tile loops of [gl_tex2d_float_clear]. *)
Definition tile_uploads (width height : Z) : list call :=
  flat_map (fun y =>
    flat_map (fun x =>
      [glTexSubImage2D GL_TEXTURE_2D 0 x y
         (if x + 16 >? width then width - x else 16)
         (if y + 16 >? height then height - y else 16)
         GL_RED GL_FLOAT])
      (tile_starts width))
    (tile_starts height).

(** The state block and the world [gl_deferred_init] leaves when it does
    its work, from the names GL hands out. *)
Definition deferred_state (g : fosphor_gl_state) (w : world)
  : fosphor_gl_state :=
  let t1 := fresh (textures w) in
  let t2 := fresh ({[ t1 ]} ∪ textures w) in
  let b := fresh (buffers w) in
  set_vbo_spectrum
    (set_tex_histogram
       (set_tex_waterfall (set_init_complete g 1) (Z.pos t1)) (Z.pos t2))
    (Z.pos b).

Definition deferred_world (w : world) : world :=
  let t1 := fresh (textures w) in
  let t2 := fresh ({[ t1 ]} ∪ textures w) in
  let b := fresh (buffers w) in
  set_buffers (set_textures w ({[ t2 ]} ∪ ({[ t1 ]} ∪ textures w)))
    ({[ b ]} ∪ buffers w).

(** The handle the [switch] of the accessor selects from a state block. *)
Definition handle_of {hdr : Headers} (g : fosphor_gl_state) (id : Z) : Z :=
  if id =? GL_ID_TEX_WATERFALL then tex_waterfall g
  else if id =? GL_ID_TEX_HISTOGRAM then tex_histogram g
  else if id =? GL_ID_VBO_SPECTRUM then vbo_spectrum g
  else 0.

(** The world [fosphor_gl_release] leaves for a state block. *)
Definition released_world (g : fosphor_gl_state) (w : world) : world := {|
  env := env w;
  textures :=
    drop_name (cmap_waterfall g) (drop_name (cmap_histogram g)
      (drop_name (tex_waterfall g) (drop_name (tex_histogram g) (textures w))));
  buffers := drop_name (vbo_spectrum g) (buffers w);
  fonts := drop_name (font g) (fonts w);
  cmap_ctxs := drop_name (cmap_ctx g) (cmap_ctxs w);
|}.

(** The calls of [fosphor_gl_release] on a state block. *)
Definition release_calls (g : fosphor_gl_state) : list call :=
  [ glDeleteBuffers (vbo_spectrum g);
    glDeleteTextures (tex_histogram g);
    glDeleteTextures (tex_waterfall g);
    glDeleteTextures (cmap_histogram g);
    glDeleteTextures (cmap_waterfall g);
    fosphor_gl_cmap_release (cmap_ctx g);
    glf_free (font g);
    free ].

(** Every call that can fail succeeds. *)
Definition all_succeed (e : environment) : Prop :=
  env_malloc e = true /\
  env_glf_alloc e = true /\
  is_Some (env_resource_get e) /\
  env_glf_load_face_mem e = 0 /\
  env_cmap_init e = true /\
  env_cmap_generate e fosphor_gl_cmap_waterfall = 0 /\
  env_cmap_generate e fosphor_gl_cmap_histogram = 0 /\
  env_map_buffer e = true.

(** The state block, the world and the calls of a [fosphor_gl_init] in
    which every step succeeds, from the addresses and names handed out. *)
Definition constructed_state (w : world) : fosphor_gl_state := {|
  init_complete := 0;
  font := Z.pos (fresh (fonts w));
  cmap_ctx := Z.pos (fresh (cmap_ctxs w));
  cmap_waterfall := Z.pos (fresh (textures w));
  cmap_histogram := Z.pos (fresh ({[ fresh (textures w) ]} ∪ textures w));
  tex_waterfall := 0; tex_histogram := 0; vbo_spectrum := 0;
|}.

Definition constructed_world (w : world) : world := {|
  env := env w;
  textures :=
    {[ fresh ({[ fresh (textures w) ]} ∪ textures w) ]} ∪
      ({[ fresh (textures w) ]} ∪ textures w);
  buffers := buffers w;
  fonts := {[ fresh (fonts w) ]} ∪ fonts w;
  cmap_ctxs := {[ fresh (cmap_ctxs w) ]} ∪ cmap_ctxs w;
|}.

Definition init_calls (g : fosphor_gl_state) (len : Z) : list call :=
  [ malloc true;
    glf_alloc 8 GLF_FLG_LCD (font g);
    resource_get "DroidSansMonoDotted.ttf" (Some len);
    glf_load_face_mem (font g) len 0;
    fosphor_gl_cmap_init (cmap_ctx g);
    fosphor_gl_cmap_generate fosphor_gl_cmap_waterfall 256 0 (cmap_waterfall g);
    fosphor_gl_cmap_generate fosphor_gl_cmap_histogram 256 0 (cmap_histogram g) ].

(** A call that only uploads texels. *)
Definition is_upload (c : call) : Prop :=
  match c with
  | glTexSubImage2D _ _ _ _ _ _ _ _ => True
  | _ => False
  end.

(** The three device objects of a state block are in use and the block
    says so. *)
Definition gpu_ready (g : fosphor_gl_state) (w : world) : Prop :=
  init_complete g <> 0 /\
  live (tex_waterfall g) (textures w) /\
  live (tex_histogram g) (textures w) /\
  tex_waterfall g <> tex_histogram g /\
  live (vbo_spectrum g) (buffers w).

(** The host-side objects [fosphor_gl_init] builds are in use. *)
Definition host_ready (g : fosphor_gl_state) (w : world) : Prop :=
  live (font g) (fonts w) /\
  live (cmap_ctx g) (cmap_ctxs w) /\
  live (cmap_waterfall g) (textures w) /\
  live (cmap_histogram g) (textures w) /\
  cmap_waterfall g <> cmap_histogram g.

(** The flag of a state block is only set once the device objects exist. *)
Definition consistent (g : fosphor_gl_state) (w : world) : Prop :=
  init_complete g <> 0 -> gpu_ready g w.

(** ** Checks by evaluation *)

(** The end-points of the full window, for an FFT length [n]. *)
Definition full_window_ok (n : Z) : bool :=
  let c := F32.of_Z (int_sub n 1) in
  let first := int_add 1 (int_of_float
                 (F32.ceilf (F32.zero * c - F32.half)%f32)) in
  let last := int_add 1 (int_of_float
                 (F32.floorf (F32.one * c - F32.half)%f32)) in
  (first =? 1) && (last =? n - 1) && (int_add (int_sub last first) 1 =? n - 1).

(** [v_end - v_start] is the span, exactly, at write position [pos]. *)
Definition span_exact (pos : Z) (sp : f32) : bool :=
  let v_end := (F32.of_Z pos / F32.of_Z 1024)%f32 in
  Qeq_bool (F32.to_Q v_end - F32.to_Q (v_end - sp)%f32) (F32.to_Q sp).

(** ** A renderer to evaluate on *)

(** Every call that can fail succeeds. *)
Definition env_ok : environment := {|
  env_malloc := true;
  env_glf_alloc := true;
  env_resource_get := Some 117072;
  env_glf_load_face_mem := 0;
  env_cmap_init := true;
  env_cmap_generate := fun _ => 0;
  env_map_buffer := true;
|}.

Definition world_empty : world := {|
  env := env_ok; textures := ∅; buffers := ∅; fonts := ∅; cmap_ctxs := ∅;
|}.

Definition demo_power : power_cfg := {|
  db_ref := 0; db_per_div := 10;
  scale := F32.lit 1 100; offset := F32.one;
|}.

Definition demo_frequency : frequency_cfg := {|
  center := F32.of_Z 100000000; span := F32.of_Z 1000000;
|}.

(** Before [fosphor_gl_init]. *)
Definition self_blank : fosphor := {|
  gl := None; power := demo_power; frequency := demo_frequency;
|}.

(** After [fosphor_gl_init]. *)
Definition state_constructed : fosphor_gl_state := {|
  init_complete := 0; font := 1; cmap_ctx := 1;
  cmap_waterfall := 1; cmap_histogram := 2;
  tex_waterfall := 0; tex_histogram := 0; vbo_spectrum := 0;
|}.

Definition self_constructed : fosphor := set_gl self_blank (Some state_constructed).

Definition world_constructed : world := {|
  env := env_ok;
  textures := {[ 1%positive; 2%positive ]};
  buffers := ∅;
  fonts := {[ 1%positive ]};
  cmap_ctxs := {[ 1%positive ]};
|}.

(** After the first call of the accessor. *)
Definition state_ready : fosphor_gl_state := {|
  init_complete := 1; font := 1; cmap_ctx := 1;
  cmap_waterfall := 1; cmap_histogram := 2;
  tex_waterfall := 3; tex_histogram := 4; vbo_spectrum := 1;
|}.

Definition self_ready : fosphor := set_gl self_blank (Some state_ready).

Definition world_ready : world := {|
  env := env_ok;
  textures := {[ 1%positive; 2%positive; 3%positive; 4%positive ]};
  buffers := {[ 1%positive ]};
  fonts := {[ 1%positive ]};
  cmap_ctxs := {[ 1%positive ]};
|}.

Definition demo_render (opts : Z) (f0 f1 : f32) (pos : Z) (wspan : f32)
  : fosphor_render := {|
  options := opts;
  freq_start := f0; freq_stop := f1;
  wf_span := wspan; _wf_pos := pos;
  _x := (F32.of_Z 10, F32.of_Z 810); _x_div := F32.of_Z 80;
  _x_label := F32.of_Z 5;
  _y_wf := (F32.of_Z 10, F32.of_Z 300);
  _y_histo := (F32.of_Z 310, F32.of_Z 610); _y_histo_div := F32.of_Z 30;
  _y_label := F32.of_Z 2;
|}.

(** Live, max-hold and waterfall with both label kinds, full window. *)
Definition render_full : fosphor_render :=
  demo_render (1 + 2 + 8 + 16 + 32) F32.zero F32.one 5 (F32.of_Z 10).

(** The waterfall alone. *)
Definition render_waterfall_only : fosphor_render :=
  demo_render 8 F32.zero F32.one 512 (F32.lit 1 10).

(** ** Further observations *)

(** The tiles uploaded, each by its origin and its size. *)
Fixpoint upload_tiles (tr : list call) : list (Z * Z * Z * Z) :=
  match tr with
  | [] => []
  | glTexSubImage2D _ _ x y cw ch _ _ :: tr' => (x, y, cw, ch) :: upload_tiles tr'
  | _ :: tr' => upload_tiles tr'
  end.

(** The texel [(px, py)] lies in a tile. *)
Definition covers (t : Z * Z * Z * Z) (px py : Z) : Prop :=
  let '(x, y, cw, ch) := t in
  x <= px < x + cw /\ y <= py < y + ch.

(** A tile lies in a [width] by [height] image and fits the 16 by 16
    scratch buffer of [gl_tex2d_float_clear]. *)
Definition tile_fits (width height : Z) (t : Z * Z * Z * Z) : Prop :=
  let '(x, y, cw, ch) := t in
  0 <= x /\ 0 <= y /\ 1 <= cw <= 16 /\ 1 <= ch <= 16 /\
  x + cw <= width /\ y + ch <= height.

(** A call that configures, allocates or fills the texture bound to
    [GL_TEXTURE_2D]. *)
Definition is_texture_op (c : call) : bool :=
  match c with
  | glTexParameteri GL_TEXTURE_2D _ _
  | glTexImage2D GL_TEXTURE_2D _ _ _ _ _ _ _
  | glTexSubImage2D GL_TEXTURE_2D _ _ _ _ _ _ _ => true
  | _ => false
  end.

(** The calls that act on texture [tex]: those issued while it is the
    texture bound to [GL_TEXTURE_2D], [bound] being the one bound at the
    start. *)
Fixpoint texture_ops_from (bound tex : Z) (tr : list call) : list call :=
  match tr with
  | [] => []
  | glBindTexture GL_TEXTURE_2D t :: tr' => texture_ops_from t tex tr'
  | c :: tr' =>
      (if is_texture_op c && (bound =? tex) then [c] else []) ++
      texture_ops_from bound tex tr'
  end.

(** A call that allocates, maps, fills or unmaps the buffer bound to
    [GL_ARRAY_BUFFER]. *)
Definition is_buffer_op (c : call) : bool :=
  match c with
  | glBufferData GL_ARRAY_BUFFER _ _
  | glMapBuffer GL_ARRAY_BUFFER _ _
  | memset_mapped _
  | glUnmapBuffer GL_ARRAY_BUFFER => true
  | _ => false
  end.

(** The calls that act on buffer [buf]. *)
Fixpoint buffer_ops_from (bound buf : Z) (tr : list call) : list call :=
  match tr with
  | [] => []
  | glBindBuffer GL_ARRAY_BUFFER b :: tr' => buffer_ops_from b buf tr'
  | c :: tr' =>
      (if is_buffer_op c && (bound =? buf) then [c] else []) ++
      buffer_ops_from bound buf tr'
  end.

(** The calls of a deferred initialisation that does its work, from the
    names GL hands out ([aborted]: up to the mapping that fails). *)
Definition deferred_calls {hdr : Headers} (w : world) (mapped : bool)
  : list call :=
  let t1 := Z.pos (fresh (textures w)) in
  let t2 := Z.pos (fresh ({[ fresh (textures w) ]} ∪ textures w)) in
  let b := Z.pos (fresh (buffers w)) in
  let len := wrap32 (2 * 4 * 2 * FOSPHOR_FFT_LEN) in
  [ glGenTextures t1;
    glBindTexture GL_TEXTURE_2D t1;
    glTexParameteri GL_TEXTURE_2D GL_TEXTURE_MAG_FILTER GL_LINEAR;
    glTexParameteri GL_TEXTURE_2D GL_TEXTURE_MIN_FILTER GL_LINEAR;
    glTexParameteri GL_TEXTURE_2D GL_TEXTURE_WRAP_S GL_REPEAT;
    glTexParameteri GL_TEXTURE_2D GL_TEXTURE_WRAP_T GL_REPEAT;
    glTexImage2D GL_TEXTURE_2D 0 GL_R32F FOSPHOR_FFT_LEN 1024 0 GL_RED GL_FLOAT;
    glBindTexture GL_TEXTURE_2D t1 ] ++
  tile_uploads FOSPHOR_FFT_LEN 1024 ++
  [ glGenTextures t2;
    glBindTexture GL_TEXTURE_2D t2;
    glTexParameteri GL_TEXTURE_2D GL_TEXTURE_MAG_FILTER GL_LINEAR;
    glTexParameteri GL_TEXTURE_2D GL_TEXTURE_MIN_FILTER GL_LINEAR;
    glTexParameteri GL_TEXTURE_2D GL_TEXTURE_WRAP_S GL_REPEAT;
    glTexParameteri GL_TEXTURE_2D GL_TEXTURE_WRAP_T GL_CLAMP_TO_EDGE;
    glTexImage2D GL_TEXTURE_2D 0 GL_R32F FOSPHOR_FFT_LEN 128 0 GL_RED GL_FLOAT;
    glBindTexture GL_TEXTURE_2D t2 ] ++
  tile_uploads FOSPHOR_FFT_LEN 128 ++
  [ glGenBuffers b;
    glBindBuffer GL_ARRAY_BUFFER b;
    glBufferData GL_ARRAY_BUFFER len GL_DYNAMIC_DRAW;
    glBindBuffer GL_ARRAY_BUFFER b;
    glMapBuffer GL_ARRAY_BUFFER GL_WRITE_ONLY mapped ] ++
  (if mapped
   then [ memset_mapped len; glUnmapBuffer GL_ARRAY_BUFFER ]
   else []).

(** The part of the GL state a frame changes: depth of the matrix stack,
    whether a [glBegin] is open, whether the colormap stage is enabled,
    blending, line smoothing, the vertex array, whether a [glf_begin] is
    open. *)
Record gl_track : Type := {
  matrix_depth : nat;
  primitive : bool;
  colormap : bool;
  blend : bool;
  line_smooth : bool;
  vertex_array : bool;
  text : bool;
}.

(** The effect of a call on that state; [None] when the call is out of
    place there: anything but vertex attributes between [glBegin] and
    [glEnd], a vertex, a [glEnd] or a second [glBegin] outside, a
    [glPopMatrix] on an empty stack, a draw from a disabled vertex array,
    a colormap or text call outside its bracket or a bracket opened
    twice. *)
Definition track_call (s : gl_track) (c : call) : option gl_track :=
  let outside (s' : gl_track) := if primitive s then None else Some s' in
  match c with
  | glBegin _ =>
      outside {| matrix_depth := matrix_depth s; primitive := true;
                 colormap := colormap s; blend := blend s;
                 line_smooth := line_smooth s;
                 vertex_array := vertex_array s; text := text s |}
  | glEnd =>
      if primitive s
      then Some {| matrix_depth := matrix_depth s; primitive := false;
                   colormap := colormap s; blend := blend s;
                   line_smooth := line_smooth s;
                   vertex_array := vertex_array s; text := text s |}
      else None
  | glVertex2f _ _ => if primitive s then Some s else None
  | glTexCoord2f _ _ | glColor3f _ _ _ | glColor4f _ _ _ _ => Some s
  | glPushMatrix =>
      outside {| matrix_depth := S (matrix_depth s); primitive := false;
                 colormap := colormap s; blend := blend s;
                 line_smooth := line_smooth s;
                 vertex_array := vertex_array s; text := text s |}
  | glPopMatrix =>
      match matrix_depth s with
      | O => None
      | S d =>
          outside {| matrix_depth := d; primitive := false;
                     colormap := colormap s; blend := blend s;
                     line_smooth := line_smooth s;
                     vertex_array := vertex_array s; text := text s |}
      end
  | glEnable cap =>
      outside {| matrix_depth := matrix_depth s; primitive := false;
                 colormap := colormap s;
                 blend := match cap with GL_BLEND => true | _ => blend s end;
                 line_smooth := match cap with
                                | GL_LINE_SMOOTH => true
                                | _ => line_smooth s
                                end;
                 vertex_array := vertex_array s; text := text s |}
  | glDisable cap =>
      outside {| matrix_depth := matrix_depth s; primitive := false;
                 colormap := colormap s;
                 blend := match cap with GL_BLEND => false | _ => blend s end;
                 line_smooth := match cap with
                                | GL_LINE_SMOOTH => false
                                | _ => line_smooth s
                                end;
                 vertex_array := vertex_array s; text := text s |}
  | glEnableClientState GL_VERTEX_ARRAY =>
      outside {| matrix_depth := matrix_depth s; primitive := false;
                 colormap := colormap s; blend := blend s;
                 line_smooth := line_smooth s;
                 vertex_array := true; text := text s |}
  | glDisableClientState GL_VERTEX_ARRAY =>
      outside {| matrix_depth := matrix_depth s; primitive := false;
                 colormap := colormap s; blend := blend s;
                 line_smooth := line_smooth s;
                 vertex_array := false; text := text s |}
  | glDrawArrays _ _ _ => if vertex_array s then outside s else None
  | fosphor_gl_cmap_enable _ _ _ _ _ _ =>
      if colormap s then None
      else outside {| matrix_depth := matrix_depth s; primitive := false;
                      colormap := true; blend := blend s;
                      line_smooth := line_smooth s;
                      vertex_array := vertex_array s; text := text s |}
  | fosphor_gl_cmap_disable =>
      if colormap s
      then outside {| matrix_depth := matrix_depth s; primitive := false;
                      colormap := false; blend := blend s;
                      line_smooth := line_smooth s;
                      vertex_array := vertex_array s; text := text s |}
      else None
  | glf_begin _ _ _ _ =>
      if text s then None
      else outside {| matrix_depth := matrix_depth s; primitive := false;
                      colormap := colormap s; blend := blend s;
                      line_smooth := line_smooth s;
                      vertex_array := vertex_array s; text := true |}
  | glf_printf _ _ _ _ _ _ => if text s then outside s else None
  | glf_end =>
      if text s
      then outside {| matrix_depth := matrix_depth s; primitive := false;
                      colormap := colormap s; blend := blend s;
                      line_smooth := line_smooth s;
                      vertex_array := vertex_array s; text := false |}
      else None
  | _ => outside s
  end.

Fixpoint track (s : gl_track) (tr : list call) : option gl_track :=
  match tr with
  | [] => Some s
  | c :: tr' =>
      match track_call s c with
      | Some s' => track s' tr'
      | None => None
      end
  end.

(** The quads of a frame: for each [GL_QUADS] bracket its corners in
    order, each with the texture coordinate it is given when the colormap
    stage is enabled. *)
Fixpoint quads_from (cmap : bool) (tc : option (f32 * f32))
    (open : option (list (option (f32 * f32) * (f32 * f32))))
    (tr : list call) : list (list (option (f32 * f32) * (f32 * f32))) :=
  match tr with
  | [] => []
  | fosphor_gl_cmap_enable _ _ _ _ _ _ :: tr' => quads_from true tc open tr'
  | fosphor_gl_cmap_disable :: tr' => quads_from false tc open tr'
  | glBegin GL_QUADS :: tr' => quads_from cmap tc (Some []) tr'
  | glTexCoord2f u v :: tr' => quads_from cmap (Some (u, v)) open tr'
  | glVertex2f x y :: tr' =>
      quads_from cmap tc
        (match open with
         | Some corners =>
             Some (corners ++ [(if cmap then tc else None, (x, y))])
         | None => None
         end) tr'
  | glEnd :: tr' =>
      match open with
      | Some corners => corners :: quads_from cmap tc None tr'
      | None => quads_from cmap tc None tr'
      end
  | _ :: tr' => quads_from cmap tc open tr'
  end.

Definition quads (tr : list call)
  : list (list (option (f32 * f32) * (f32 * f32))) :=
  quads_from false None None tr.

(** The scale factors a frame multiplies the current matrix by, in
    order. *)
Fixpoint scales (tr : list call) : list (f32 * f32 * f32) :=
  match tr with
  | [] => []
  | glScalef x y z :: tr' => (x, y, z) :: scales tr'
  | _ :: tr' => scales tr'
  end.

(** Every name in use in the first world is in use in the second. *)
Definition keeps_objects (w w' : world) : Prop :=
  textures w ⊆ textures w' /\ buffers w ⊆ buffers w' /\
  fonts w ⊆ fonts w' /\ cmap_ctxs w ⊆ cmap_ctxs w'.

(** ** Further values to evaluate on *)

(** A GL state with nothing open. *)
Definition track_idle : gl_track := {|
  matrix_depth := 0; primitive := false; colormap := false; blend := false;
  line_smooth := false; vertex_array := false; text := false;
|}.

(** The world after [fosphor_gl_init], with a driver that cannot map
    buffers. *)
Definition env_unmappable : environment := {|
  env_malloc := true;
  env_glf_alloc := true;
  env_resource_get := Some 117072;
  env_glf_load_face_mem := 0;
  env_cmap_init := true;
  env_cmap_generate := fun _ => 0;
  env_map_buffer := false;
|}.

Definition world_unmappable : world := {|
  env := env_unmappable;
  textures := {[ 1%positive; 2%positive ]};
  buffers := ∅;
  fonts := {[ 1%positive ]};
  cmap_ctxs := {[ 1%positive ]};
|}.

(** Live and max-hold over a window of no width, at a quarter of the
    band. *)
Definition render_empty_window : fosphor_render :=
  demo_render (1 + 2) (F32.lit 1 4) (F32.lit 1 4) 5 (F32.of_Z 10).
(** ** Properties of the draw sequence *)

Section DrawFacts.

Context {hdr : Headers}.

Lemma test_lor (a b : Z) : test (Z.lor a b) = test a || test b.
Proof.
  unfold test.
  destruct (Z.eqb_spec a 0) as [->|Ha]; [reflexivity|].
  destruct (Z.eqb_spec (Z.lor a b) 0) as [Hab|]; [|reflexivity].
  apply Z.lor_eq_0_iff in Hab. tauto.
Qed.

Lemma has_lor (render : fosphor_render) (a b : Z) :
  has render (Z.lor a b) = has render a || has render b.
Proof. unfold has. now rewrite Z.land_lor_distr_r, test_lor. Qed.

Lemma grid_indices_eq : grid_indices = [0; 1; 2; 3; 4; 5; 6; 7; 8; 9; 10].
Proof. reflexivity. Qed.

Lemma whole_span_exact (pos s : Z) :
  0 <= pos < 1024 -> 1 <= s <= 10 ->
  (F32.to_Q (F32.of_Z pos / F32.of_Z 1024)%f32 -
   F32.to_Q ((F32.of_Z pos / F32.of_Z 1024) - F32.of_Z s)%f32
   == inject_Z s)%Q.
Proof.
  intros Hp Hs.
  assert (Hall : forallb (fun p => forallb (fun k =>
                     span_exact p (F32.of_Z k) &&
                     Qeq_bool (F32.to_Q (F32.of_Z k)) (inject_Z k))
                   (Z.of_nat <$> seq 1 10)) (Z.of_nat <$> seq 0 1024) = true)
    by (vm_compute; reflexivity).
  rewrite forallb_forall in Hall.
  assert (Hpos : In pos (Z.of_nat <$> seq 0 1024)).
  { apply list_elem_of_In, list_elem_of_fmap. exists (Z.to_nat pos).
    split; [lia|]. apply elem_of_seq. lia. }
  specialize (Hall pos Hpos). rewrite forallb_forall in Hall.
  assert (Hin : In s (Z.of_nat <$> seq 1 10)).
  { apply list_elem_of_In, list_elem_of_fmap. exists (Z.to_nat s).
    split; [lia|]. apply elem_of_seq. lia. }
  specialize (Hall s Hin). apply andb_prop in Hall as [He Hk].
  apply Qeq_bool_eq in He, Hk. unfold span_exact in He.
  rewrite He. exact Hk.
Qed.

Lemma wrap32_small (z : Z) : - 2 ^ 31 <= z < 2 ^ 31 -> wrap32 z = z.
Proof. intros Hz. unfold wrap32. rewrite Z.mod_small; lia. Qed.

Lemma wrap32_sub_wrap32 (a b : Z) : wrap32 (a - wrap32 b) = wrap32 (a - b).
Proof.
  unfold wrap32. f_equal.
  rewrite (Z.mod_eq (b + 2 ^ 31) (2 ^ 32)) by lia.
  replace (a - (b + 2 ^ 31 - 2 ^ 32 * ((b + 2 ^ 31) / 2 ^ 32) - 2 ^ 31) + 2 ^ 31)
    with (a - b + 2 ^ 31 + ((b + 2 ^ 31) / 2 ^ 32) * 2 ^ 32) by lia.
  apply Z_mod_plus_full.
Qed.

(** The value of a power label, [db_ref - (10-i) * db_per_div] in [int]
    arithmetic. *)
Lemma pwr_label_value (a d i : Z) :
  0 <= i <= 10 ->
  int_sub a (int_mul (int_sub 10 i) d) = wrap32 (a - (10 - i) * d).
Proof.
  intros Hi. unfold int_sub at 2. rewrite (wrap32_small (10 - i)) by lia.
  unfold int_sub, int_mul. apply wrap32_sub_wrap32.
Qed.

(** Adding [0.0f] leaves the value of a number as it is. *)
Lemma add_zero_value (x : f32) : F32.to_Q (x + F32.zero)%f32 = F32.to_Q x.
Proof. destruct x as [[]|[]| |s m e]; reflexivity. Qed.

Lemma full_window_pow2 (k : Z) :
  0 <= k <= 24 -> full_window_ok (2 ^ k) = true.
Proof.
  intros Hk.
  assert (Hall : forallb (fun j => full_window_ok (2 ^ j))
                   (Z.of_nat <$> seq 0 25) = true) by (vm_compute; reflexivity).
  rewrite forallb_forall in Hall. apply Hall.
  apply list_elem_of_In, list_elem_of_fmap. exists (Z.to_nat k). split; [lia|].
  apply elem_of_seq. lia.
Qed.

End DrawFacts.

(** Evaluation of a draw on a renderer whose state block is [Some g]:
    the six option tests are settled one way or the other, then the
    sequence of calls is computed, leaving float and int arithmetic as
    it stands. *)
Ltac split_options render :=
  destruct (has render FRO_WATERFALL) eqn:E_waterfall;
  destruct (has render FRO_HISTO) eqn:E_histo;
  destruct (has render FRO_LIVE) eqn:E_live;
  destruct (has render FRO_MAX_HOLD) eqn:E_max_hold;
  destruct (has render FRO_LABEL_PWR) eqn:E_label_pwr;
  destruct (has render FRO_LABEL_FREQ) eqn:E_label_freq.

Ltac unfold_draw :=
  unfold fosphor_gl_draw, draw_waterfall, draw_histogram, draw_spectrum,
    draw_grid, draw_grid_line;
  rewrite ?has_lor, ?grid_indices_eq.

Ltac eval_calls :=
  cbv beta iota zeta delta
    [bind ret emit stop deref when for_each outcome after calls app gl
     orb andb negb draw_arrays count_finish last
     tex_coords tex_coords_from layers layers_from line_segments labels
     flat_map].

Section DrawTheorems.

Context {hdr : Headers}.

(** C8.  Every draw on an initialised renderer, whatever the render
    request, runs to its end and issues exactly one [glFinish], as the
    last call of the frame; with no layer requested this holds even when
    the renderer has no state block. *)
Theorem draw_ends_with_finish (self : fosphor) (render : fosphor_render)
    (w : world) :
  is_Some (gl self) \/
    (has render FRO_WATERFALL = false /\ has render FRO_HISTO = false /\
     has render FRO_LIVE = false /\ has render FRO_MAX_HOLD = false) ->
  outcome (fosphor_gl_draw self render w) = Ok tt /\
  last (calls (fosphor_gl_draw self render w)) = Some glFinish /\
  count_finish (calls (fosphor_gl_draw self render w)) = 1%nat.
Proof.
  intros [[g Hg] | (Hw & Hh & Hl & Hm)]; destruct self as [p pw fq];
    cbn [gl] in *; unfold_draw.
  - subst p. split_options render; eval_calls; repeat split; reflexivity.
  - rewrite Hw, Hh, Hl, Hm. eval_calls. repeat split; reflexivity.
Qed.

(** Without a state block a draw of any layer dereferences NULL. *)
Lemma draw_without_state_faults (self : fosphor) (render : fosphor_render)
    (w : world) :
  gl self = None ->
  has render FRO_WATERFALL = true \/ has render FRO_HISTO = true \/
    has render FRO_LIVE = true \/ has render FRO_MAX_HOLD = true ->
  outcome (fosphor_gl_draw self render w) = Crash NullDeref.
Proof.
  intros Hg Hreq. destruct self as [p pw fq]; cbn [gl] in Hg; subst p.
  unfold_draw. split_options render; eval_calls; try reflexivity;
    destruct Hreq as [?|[?|[?|?]]]; discriminate.
Qed.

(** C1.  With the live or the max-hold layer requested, the draw issues
    the live polyline from vertex [1 + ceilf(freq_start*(N-1) - 0.5)] and
    the max-hold polyline from the same vertex plus [N], each of
    [last - first + 1] vertices with
    [last = 1 + floorf(freq_stop*(N-1) - 0.5)], in the code's float and
    int arithmetic; for the full window [0, 1] and [N = 2^k], [k <= 24],
    the run is first 1, last [N-1], [N-1] vertices. *)
Theorem spectrum_polyline_run (self : fosphor) (g : fosphor_gl_state)
    (render : fosphor_render) (w : world) :
  gl self = Some g ->
  has render FRO_LIVE = true \/ has render FRO_MAX_HOLD = true ->
  let n := FOSPHOR_FFT_LEN in
  let first := int_add 1 (int_of_float (F32.ceilf
                 (freq_start render * F32.of_Z (int_sub n 1) - F32.half)%f32)) in
  let last := int_add 1 (int_of_float (F32.floorf
                 (freq_stop render * F32.of_Z (int_sub n 1) - F32.half)%f32)) in
  let count := int_add (int_sub last first) 1 in
  draw_arrays (calls (fosphor_gl_draw self render w)) =
    (if has render FRO_LIVE then [(GL_LINE_STRIP, first, count)] else []) ++
    (if has render FRO_MAX_HOLD
     then [(GL_LINE_STRIP, int_add first n, count)] else []) /\
  (forall k : Z, 0 <= k <= 24 -> n = 2 ^ k ->
     freq_start render = F32.zero -> freq_stop render = F32.one ->
     first = 1 /\ last = n - 1 /\ count = n - 1).
Proof.
  intros Hg Hreq n first last count. split.
  - destruct self as [p pw fq]; cbn [gl] in Hg; subst p.
    subst first last count n. unfold_draw. unfold spectrum_idx0, spectrum_idx1.
    split_options render; eval_calls; try reflexivity;
      destruct Hreq; discriminate.
  - intros k Hk Hn Hs He. subst first last count.
    rewrite Hs, He, Hn.
    pose proof (full_window_pow2 k Hk) as Hok. unfold full_window_ok in Hok.
    apply andb_prop in Hok as [Hok H3]. apply andb_prop in Hok as [H1 H2].
    apply Z.eqb_eq in H1, H2, H3. auto.
Qed.

(** C6 (amended).  Both the waterfall quad and the histogram quad take
    their horizontal texture coordinates from
    [u = 0.5 + tw + (1 - tw) * f], [tw = 1/N], at [f = freq_start] and
    [f = freq_stop]; the waterfall quad's vertical coordinates are
    [v_end = wf_pos / 1024] and [v_start = v_end - wf_span], the
    single-precision difference, passed on unclamped.  For write position
    5 and span 10, [v_start] is [-10235/1024] and [v_end - v_start] is
    exactly 10; so it is for every write position 0..1023 and a span of
    1 to 10 texture heights. *)
Theorem quad_texture_coordinates (self : fosphor) (g : fosphor_gl_state)
    (render : fosphor_render) (w : world) :
  gl self = Some g ->
  let tw := (F32.one / F32.of_Z FOSPHOR_FFT_LEN)%f32 in
  let u := fun f : f32 => (F32.half + tw + (F32.one - tw) * f)%f32 in
  let v_end := (F32.of_Z (_wf_pos render) / F32.of_Z 1024)%f32 in
  let v_start := (v_end - wf_span render)%f32 in
  tex_coords (calls (fosphor_gl_draw self render w)) =
    (if has render FRO_WATERFALL
     then [(Some (tex_waterfall g), u (freq_start render), v_start);
           (Some (tex_waterfall g), u (freq_stop render), v_start);
           (Some (tex_waterfall g), u (freq_stop render), v_end);
           (Some (tex_waterfall g), u (freq_start render), v_end)]
     else []) ++
    (if has render FRO_HISTO
     then [(Some (tex_histogram g), u (freq_start render), F32.zero);
           (Some (tex_histogram g), u (freq_stop render), F32.zero);
           (Some (tex_histogram g), u (freq_stop render), F32.one);
           (Some (tex_histogram g), u (freq_start render), F32.one)]
     else []) /\
  (_wf_pos render = 5 -> wf_span render = F32.of_Z 10 ->
     (F32.to_Q v_start == -10235 # 1024)%Q /\
     (F32.to_Q v_end - F32.to_Q v_start == 10)%Q) /\
  (forall s : Z, 0 <= _wf_pos render < 1024 -> 1 <= s <= 10 ->
     wf_span render = F32.of_Z s ->
     (F32.to_Q v_end - F32.to_Q v_start == inject_Z s)%Q).
Proof.
  intros Hg tw u v_end v_start. split; [|split].
  - destruct self as [p pw fq]; cbn [gl] in Hg; subst p.
    subst tw u v_end v_start. unfold_draw. unfold texel_width.
    split_options render; eval_calls; reflexivity.
  - intros Hp Hs. subst v_start v_end. rewrite Hp, Hs.
    split; apply Qeq_bool_eq; vm_compute; reflexivity.
  - intros s Hp Hs Hspan. subst v_start v_end. rewrite Hspan.
    apply (whole_span_exact (_wf_pos render) s); lia.
Qed.

(** C2 (amended).  A frame is drawn in this order: the waterfall quad
    if the waterfall is requested; then the histogram quad if the
    histogram is requested, otherwise a flat background quad if the live
    or the max-hold layer is requested, otherwise neither; then the live
    and the max-hold polylines, each if requested; then, if the live, the
    max-hold or the histogram layer is requested, the eleven grid lines
    with their labels. *)
Theorem draw_layer_order (self : fosphor) (g : fosphor_gl_state)
    (render : fosphor_render) (w : world) :
  gl self = Some g ->
  let spectrum := has render FRO_LIVE || has render FRO_MAX_HOLD in
  let first := spectrum_idx0 render in
  layers (calls (fosphor_gl_draw self render w)) =
    (if has render FRO_WATERFALL
     then [textured_quad (tex_waterfall g)] else []) ++
    (if has render FRO_HISTO then [textured_quad (tex_histogram g)]
     else if spectrum then [flat_quad] else []) ++
    (if has render FRO_LIVE then [polyline first] else []) ++
    (if has render FRO_MAX_HOLD
     then [polyline (int_add first FOSPHOR_FFT_LEN)] else []) ++
    (if spectrum || has render FRO_HISTO
     then flat_map (fun _ : Z =>
            [grid_line; grid_line] ++
            (if has render FRO_LABEL_PWR then [label] else []) ++
            (if has render FRO_LABEL_FREQ then [label] else []))
            [0; 1; 2; 3; 4; 5; 6; 7; 8; 9; 10]
     else []).
Proof.
  intros Hg spectrum first. subst spectrum first.
  destruct self as [p pw fq]; cbn [gl] in Hg; subst p.
  unfold_draw. split_options render; eval_calls; reflexivity.
Qed.

(** C7.  Whenever the grid is drawn (the live, the max-hold or the
    histogram layer is requested), whatever the viewport, it has the
    eleven lines 0..10, each a vertical and a horizontal segment; the
    power label of line [i], when enabled, prints
    [db_ref - (10-i)*db_per_div] (in [int] arithmetic); the frequency
    label of line [i], when enabled, is placed at the line's [x] plus
    5 for line 0, minus 5 for line 10 and plus 0 for lines 1 to 9. *)
Theorem grid_lines_and_labels (self : fosphor) (g : fosphor_gl_state)
    (render : fosphor_render) (w : world) :
  gl self = Some g ->
  has render FRO_LIVE = true \/ has render FRO_MAX_HOLD = true \/
    has render FRO_HISTO = true ->
  let x := _x render in
  let y := _y_histo render in
  let xv := fun i : Z => (fst x + F32.of_Z i * _x_div render)%f32 in
  let yv := fun i : Z => (fst y + F32.of_Z i * _y_histo_div render)%f32 in
  let inward := fun i : Z =>
    if i =? 0 then F32.of_Z 5
    else if i =? 10 then F32.opp (F32.of_Z 5) else F32.zero in
  let axis := {| axis_center := center (frequency self);
                 axis_span := span (frequency self) |} in
  let lines := [0; 1; 2; 3; 4; 5; 6; 7; 8; 9; 10] in
  line_segments (calls (fosphor_gl_draw self render w)) =
    flat_map (fun i =>
      [ ((xv i + F32.half, fst y + F32.half),
         (xv i + F32.half, snd y - F32.half));
        ((fst x + F32.half, yv i + F32.half),
         (snd x - F32.half, yv i + F32.half)) ]%f32) lines /\
  labels (calls (fosphor_gl_draw self render w)) =
    flat_map (fun i =>
      (if has render FRO_LABEL_PWR
       then [(_x_label render, GLF_RIGHT, yv i, GLF_CENTER,
              text_int (wrap32 (db_ref (power self) -
                                (10 - i) * db_per_div (power self))))]
       else []) ++
      (if has render FRO_LABEL_FREQ
       then [((xv i + inward i)%f32, GLF_CENTER, _y_label render, GLF_CENTER,
              text_axis axis (i - 5))]
       else [])) lines /\
  (forall v : f32, F32.to_Q (v + F32.zero)%f32 = F32.to_Q v).
Proof.
  intros Hg Hgrid x y xv yv inward axis lines.
  subst x y xv yv inward axis lines.
  destruct self as [p pw fq]; cbn [gl power frequency] in *; subst p.
  split; [|split; [|apply add_zero_value]].
  - unfold_draw.
    split_options render; eval_calls; try reflexivity;
      destruct Hgrid as [?|[?|?]]; discriminate.
  - unfold_draw.
    split_options render; eval_calls;
      try (destruct Hgrid as [?|[?|?]]; discriminate);
      repeat (f_equal; try reflexivity);
      apply pwr_label_value; lia.
Qed.

End DrawTheorems.

(** ** Further properties of the draw sequence *)

Ltac eval_frame :=
  cbv beta iota zeta delta
    [bind ret emit stop deref when for_each outcome after calls app gl
     orb andb negb created destroyed if_nonzero
     track track_call matrix_depth primitive colormap blend line_smooth
     vertex_array text quads quads_from].

Section DrawExtras.

Context {hdr : Headers}.

(** A draw changes nothing in the world: it creates no object and
    destroys none, whatever the request and whether or not the renderer
    has a state block. *)
Theorem draw_creates_and_destroys_nothing (self : fosphor)
    (render : fosphor_render) (w : world) :
  after (fosphor_gl_draw self render w) = w /\
  created (calls (fosphor_gl_draw self render w)) = [] /\
  destroyed (calls (fosphor_gl_draw self render w)) = [].
Proof.
  destruct self as [[g|] pw fq]; unfold_draw;
    split_options render; eval_frame; repeat split; reflexivity.
Qed.

(** The calls of a frame are in place: vertices only between [glBegin]
    and [glEnd], no other call there, brackets not nested, the matrix
    stack never popped below its depth at the start, vertex arrays drawn
    only while enabled, labels printed only between [glf_begin] and
    [glf_end].  At the end the matrix stack, the colormap stage, the
    vertex array and the brackets are as at the start. *)
Theorem draw_respects_gl_protocol (self : fosphor) (g : fosphor_gl_state)
    (render : fosphor_render) (w : world) (s0 : gl_track) :
  gl self = Some g ->
  primitive s0 = false -> colormap s0 = false ->
  vertex_array s0 = false -> text s0 = false ->
  exists s1 : gl_track,
    track s0 (calls (fosphor_gl_draw self render w)) = Some s1 /\
    matrix_depth s1 = matrix_depth s0 /\
    primitive s1 = false /\ colormap s1 = false /\
    vertex_array s1 = false /\ text s1 = false.
Proof.
  intros Hg Hp Hc Hv Ht.
  destruct self as [p pw fq]; cbn [gl] in Hg; subst p.
  destruct s0 as [d p c b l v t]; cbn in Hp, Hc, Hv, Ht; subst p c v t.
  unfold_draw. split_options render; eval_frame;
    eexists; repeat split; reflexivity.
Qed.

(** A frame with the live or the max-hold layer enables line smoothing
    and never disables it; blending, which the spectrum and the grid
    enable, is disabled again by the end.  Other frames leave both as
    they were. *)
Theorem draw_leaves_line_smoothing_enabled (self : fosphor)
    (g : fosphor_gl_state) (render : fosphor_render) (w : world)
    (s0 : gl_track) :
  gl self = Some g ->
  primitive s0 = false -> colormap s0 = false ->
  vertex_array s0 = false -> text s0 = false ->
  let spectrum := has render FRO_LIVE || has render FRO_MAX_HOLD in
  exists s1 : gl_track,
    track s0 (calls (fosphor_gl_draw self render w)) = Some s1 /\
    line_smooth s1 = (if spectrum then true else line_smooth s0) /\
    blend s1 = (if spectrum || has render FRO_HISTO then false else blend s0).
Proof.
  intros Hg Hp Hc Hv Ht spectrum. subst spectrum.
  destruct self as [p pw fq]; cbn [gl] in Hg; subst p.
  destruct s0 as [d p c b l v t]; cbn in Hp, Hc, Hv, Ht; subst p c v t.
  unfold_draw. split_options render; eval_frame;
    eexists; repeat split; reflexivity.
Qed.

(** The quads of a frame are the rectangles of their viewports, corners
    in the order (x0,y0), (x1,y0), (x1,y1), (x0,y1): the waterfall quad
    over [_y_wf], the histogram quad, or the background quad that stands
    in for it, over [_y_histo].  On the textured quads [u] runs from its
    value at [freq_start] to its value at [freq_stop] with [x], and [v]
    from its start to its end with [y]; the background quad has no
    texture coordinates. *)
Theorem quads_are_viewport_rectangles (self : fosphor)
    (g : fosphor_gl_state) (render : fosphor_render) (w : world) :
  gl self = Some g ->
  let x0 := fst (_x render) in
  let x1 := snd (_x render) in
  let rect := fun (y : f32 * f32) (uv : option ((f32 * f32) * (f32 * f32))) =>
    let tc := fun (pick_u pick_v : f32 * f32 -> f32) =>
      match uv with
      | Some (u, v) => Some (pick_u u, pick_v v)
      | None => None
      end in
    [ (tc fst fst, (x0, fst y)); (tc snd fst, (x1, fst y));
      (tc snd snd, (x1, snd y)); (tc fst snd, (x0, snd y)) ] in
  let u := fun f : f32 =>
    (F32.half + texel_width + (F32.one - texel_width) * f)%f32 in
  let us := (u (freq_start render), u (freq_stop render)) in
  let v_end := (F32.of_Z (_wf_pos render) / F32.of_Z 1024)%f32 in
  quads (calls (fosphor_gl_draw self render w)) =
    (if has render FRO_WATERFALL
     then [rect (_y_wf render) (Some (us, ((v_end - wf_span render)%f32, v_end)))]
     else []) ++
    (if has render FRO_HISTO
     then [rect (_y_histo render) (Some (us, (F32.zero, F32.one)))]
     else if has render FRO_LIVE || has render FRO_MAX_HOLD
          then [rect (_y_histo render) None]
          else []).
Proof.
  intros Hg x0 x1 rect u us v_end. subst x0 x1 rect u us v_end.
  destruct self as [p pw fq]; cbn [gl] in Hg; subst p.
  unfold_draw. split_options render; eval_frame; reflexivity.
Qed.

(** The difference of a finite number and itself is [+0.0f]. *)
Lemma sub_self_zero (s : bool) (m : positive) (e : Z) :
  (S754_finite s m e - S754_finite s m e)%f32 = F32.zero.
Proof.
  unfold F32.sub, SFsub. cbv zeta.
  match goal with
  | |- binary_normalize _ _ (_ ?z ?z) _ _ = _ =>
      generalize z; intros a;
      assert (E : forall f, binary_normalize F32.prec F32.emax (a - a) f false
                            = F32.zero)
        by (intros f; rewrite Z.sub_diag; reflexivity);
      apply E
  end.
Qed.


End DrawExtras.

(** ** Properties of the lifecycle *)

Section Computations.

Lemma bind_run {A B : Type} (m : M A) (k : A -> M B) (w w1 : world)
    (a : A) (tr : list call) :
  m w = Run (Ok a) w1 tr ->
  bind m k w =
    Run (outcome (k a w1)) (after (k a w1)) (tr ++ calls (k a w1)).
Proof. intros E. unfold bind. rewrite E. reflexivity. Qed.

Lemma bind_intro {A B : Type} (m : M A) (k : A -> M B) (w w1 w2 : world)
    (a : A) (o : result B) (tr1 tr2 : list call) :
  m w = Run (Ok a) w1 tr1 ->
  k a w1 = Run o w2 tr2 ->
  bind m k w = Run o w2 (tr1 ++ tr2).
Proof. intros E1 E2. rewrite (bind_run _ _ _ _ _ _ E1), E2. reflexivity. Qed.

Lemma outcome_bind {A B : Type} (m : M A) (k : A -> M B) (w w1 : world)
    (a : A) (tr : list call) :
  m w = Run (Ok a) w1 tr ->
  outcome (bind m k w) = outcome (k a w1).
Proof. intros E. rewrite (bind_run _ _ _ _ _ _ E). reflexivity. Qed.

Lemma outcome_bind_crash {A B : Type} (m : M A) (k : A -> M B) (w : world)
    (c : crash) :
  outcome (m w) = Crash c ->
  outcome (bind m k w) = Crash c.
Proof. intros E. unfold bind. rewrite E. reflexivity. Qed.

(** A loop whose turns each run to their end in the world they start
    in does so too, and issues the calls of its turns in order. *)
Lemma for_each_run {A : Type} (body : A -> M unit) (f : A -> list call)
    (l : list A) :
  (forall a w, body a w = Run (Ok tt) w (f a)) ->
  forall w, for_each l body w = Run (Ok tt) w (flat_map f l).
Proof.
  intros Hbody. induction l as [|a l IH]; intros w; cbn [for_each flat_map].
  - reflexivity.
  - rewrite (bind_run _ _ _ _ _ _ (Hbody a w)), IH. reflexivity.
Qed.

Lemma created_app (a b : list call) :
  created (a ++ b) = created a ++ created b.
Proof.
  induction a as [|c a IH]; [reflexivity|].
  destruct c;
    try match goal with |- context [malloc ?b] => destruct b end;
    cbn [created app]; rewrite ?IH, ?app_assoc; reflexivity.
Qed.

Lemma destroyed_app (a b : list call) :
  destroyed (a ++ b) = destroyed a ++ destroyed b.
Proof.
  induction a as [|c a IH]; [reflexivity|].
  destruct c; cbn [destroyed app]; rewrite ?IH, ?app_assoc; reflexivity.
Qed.

Lemma created_uploads (tr : list call) :
  Forall is_upload tr -> created tr = [].
Proof.
  induction 1 as [|c tr Hc _ IH]; [reflexivity|].
  destruct c; cbn [is_upload] in Hc; try contradiction. exact IH.
Qed.

Lemma destroyed_uploads (tr : list call) :
  Forall is_upload tr -> destroyed tr = [].
Proof.
  induction 1 as [|c tr Hc _ IH]; [reflexivity|].
  destruct c; cbn [is_upload] in Hc; try contradiction. exact IH.
Qed.

Lemma tile_uploads_are_uploads (width height : Z) :
  Forall is_upload (tile_uploads width height).
Proof.
  unfold tile_uploads. apply Forall_flat_map, Forall_forall. intros y _.
  apply Forall_flat_map, Forall_forall. intros x _.
  repeat constructor.
Qed.

(** The loop variable takes exactly the multiples of 16 below [n]. *)
Lemma tile_starts_spec (n x : Z) :
  x ∈ tile_starts n <-> 0 <= x < n /\ x mod 16 = 0.
Proof.
  unfold tile_starts. rewrite list_elem_of_fmap. split.
  - intros (k & -> & Hk). apply elem_of_seq in Hk.
    assert (Z.of_nat k < (n + 15) / 16) by lia.
    split; [|rewrite Z.mul_comm; apply Z_mod_mult].
    Z.div_mod_to_equations. lia.
  - intros (Hx & Hm). exists (Z.to_nat (x / 16)). split.
    + rewrite Z2Nat.id by (Z.div_mod_to_equations; lia).
      Z.div_mod_to_equations. lia.
    + apply elem_of_seq. split; [lia|].
      assert (0 <= x / 16 < (n + 15) / 16)
        by (Z.div_mod_to_equations; lia).
      lia.
Qed.

End Computations.

(** One step of a computation: the first of two bound computations is run
    by evaluation, or by the equation of the tile loops. *)
Ltac run_step known :=
  cbv beta zeta;
  eapply bind_intro; [first [known | reflexivity] | cbv beta zeta].

Section Lifecycle.

Context {hdr : Headers}.

(** The tile loops run to their end in the world they start in: they
    bind the texture, then only upload texels. *)
Lemma gl_tex2d_float_clear_run (tex_id width height : Z) (w : world) :
  gl_tex2d_float_clear tex_id width height w =
    Run (Ok tt) w
      (glBindTexture GL_TEXTURE_2D tex_id :: tile_uploads width height).
Proof.
  unfold gl_tex2d_float_clear, tile_uploads.
  erewrite bind_run by reflexivity.
  erewrite for_each_run; [reflexivity|].
  intros y w'. cbv beta. erewrite for_each_run; [reflexivity|].
  intros x w''. reflexivity.
Qed.

Lemma gl_vbo_clear_run (vbo_id size : Z) (w : world) :
  env_map_buffer (env w) = true ->
  gl_vbo_clear vbo_id size w =
    Run (Ok tt) w
      [ glBindBuffer GL_ARRAY_BUFFER vbo_id;
        glMapBuffer GL_ARRAY_BUFFER GL_WRITE_ONLY true;
        memset_mapped size;
        glUnmapBuffer GL_ARRAY_BUFFER ].
Proof.
  intros Hmap. unfold gl_vbo_clear, bind, emit, do_glMapBuffer.
  cbn [outcome after calls]. rewrite Hmap. reflexivity.
Qed.

(** When the buffer cannot be mapped, the clear aborts. *)
Lemma gl_vbo_clear_abort (vbo_id size : Z) (w : world) :
  env_map_buffer (env w) = false ->
  outcome (gl_vbo_clear vbo_id size w) = Crash Aborted.
Proof.
  intros Hmap. unfold gl_vbo_clear, bind, emit, do_glMapBuffer.
  cbn [outcome after calls]. rewrite Hmap. reflexivity.
Qed.

(** The deferred initialisation on a block whose flag is clear, when
    the buffer can be mapped: the three objects are generated, in the
    order waterfall texture, histogram texture, spectrum buffer. *)
Lemma gl_deferred_init_run (self : fosphor) (g : fosphor_gl_state)
    (w : world) :
  gl self = Some g ->
  init_complete g = 0 ->
  env_map_buffer (env w) = true ->
  exists tr,
    gl_deferred_init self w =
      Run (Ok (set_gl self (Some (deferred_state g w))))
          (deferred_world w) tr /\
    created tr =
      [ obj_texture (tex_waterfall (deferred_state g w));
        obj_texture (tex_histogram (deferred_state g w));
        obj_buffer (vbo_spectrum (deferred_state g w)) ] /\
    destroyed tr = [].
Proof.
  intros Hg Hinit Hmap.
  eexists. split; [|split].
  - unfold gl_deferred_init. rewrite Hg.
    run_step fail. rewrite Hinit.
    change (test 0) with false. cbv iota.
    do 20 run_step ltac:(first [ apply gl_tex2d_float_clear_run
                               | apply gl_vbo_clear_run; exact Hmap ]).
    reflexivity.
  - rewrite !created_app. cbn [created app].
    rewrite !created_uploads by apply tile_uploads_are_uploads.
    reflexivity.
  - rewrite !destroyed_app. cbn [destroyed app].
    rewrite !destroyed_uploads by apply tile_uploads_are_uploads.
    reflexivity.
Qed.

(** When the buffer cannot be mapped the deferred initialisation does not
    return: the accessor ends in [abort()]. *)
Lemma get_shared_id_aborts (self : fosphor) (g : fosphor_gl_state)
    (w : world) (id : Z) :
  gl self = Some g ->
  init_complete g = 0 ->
  env_map_buffer (env w) = false ->
  outcome (fosphor_gl_get_shared_id self id w) = Crash Aborted.
Proof.
  intros Hg Hinit Hmap.
  unfold fosphor_gl_get_shared_id. apply outcome_bind_crash.
  unfold gl_deferred_init. rewrite Hg.
  erewrite outcome_bind by reflexivity. rewrite Hinit.
  change (test 0) with false. cbv iota.
  do 19 (cbv beta zeta;
         erewrite outcome_bind
           by first [apply gl_tex2d_float_clear_run | reflexivity]).
  cbv beta zeta. apply outcome_bind_crash, gl_vbo_clear_abort. exact Hmap.
Qed.

(** *** Teardown *)

Lemma release_run (self : fosphor) (g : fosphor_gl_state) (w : world) :
  gl self = Some g ->
  fosphor_gl_release self w =
    Run (Ok (set_gl self None)) (released_world g w) (release_calls g).
Proof. intros Hg. unfold fosphor_gl_release. rewrite Hg. reflexivity. Qed.

Lemma release_null (self : fosphor) (w : world) :
  gl self = None -> fosphor_gl_release self w = Run (Ok self) w [].
Proof. intros Hg. unfold fosphor_gl_release. rewrite Hg. reflexivity. Qed.

(** *** The accessor *)

(** On a block whose flag is set the accessor issues no call and
    changes nothing. *)
Lemma get_shared_id_ready (self : fosphor) (g : fosphor_gl_state)
    (w : world) (id : Z) :
  gl self = Some g ->
  init_complete g <> 0 ->
  fosphor_gl_get_shared_id self id w = Run (Ok (handle_of g id, self)) w [].
Proof.
  intros Hg Hinit.
  assert (Ht : test (init_complete g) = true)
    by (unfold test; destruct (Z.eqb_spec (init_complete g) 0); [lia|reflexivity]).
  unfold fosphor_gl_get_shared_id, gl_deferred_init, handle_of.
  rewrite Hg. unfold bind at 2. cbn [deref ret outcome after calls].
  rewrite Ht. unfold bind, ret. cbn [outcome after calls]. rewrite Hg.
  cbn [deref ret outcome after calls].
  repeat match goal with |- context [if ?c then _ else _] => destruct c end;
    reflexivity.
Qed.

(** On a block whose flag is clear the accessor does the deferred
    initialisation, then selects from the block it has updated. *)
Lemma get_shared_id_first (self : fosphor) (g : fosphor_gl_state)
    (w : world) (id : Z) :
  gl self = Some g ->
  init_complete g = 0 ->
  env_map_buffer (env w) = true ->
  exists tr,
    fosphor_gl_get_shared_id self id w =
      Run (Ok (handle_of (deferred_state g w) id,
               set_gl self (Some (deferred_state g w))))
          (deferred_world w) tr /\
    created tr =
      [ obj_texture (tex_waterfall (deferred_state g w));
        obj_texture (tex_histogram (deferred_state g w));
        obj_buffer (vbo_spectrum (deferred_state g w)) ] /\
    destroyed tr = [].
Proof.
  intros Hg Hinit Hmap.
  destruct (gl_deferred_init_run self g w Hg Hinit Hmap) as (tr & E & Hc & Hd).
  exists (tr ++ []). split; [|rewrite app_nil_r; auto].
  unfold fosphor_gl_get_shared_id, handle_of.
  eapply bind_intro; [exact E|]. cbn [set_gl gl deref].
  unfold bind, ret. cbn [outcome after calls].
  repeat match goal with |- context [if ?c then _ else _] => destruct c end;
    reflexivity.
Qed.

Lemma get_shared_ids_ready (self : fosphor) (g : fosphor_gl_state)
    (w : world) (ids : list Z) :
  gl self = Some g ->
  init_complete g <> 0 ->
  get_shared_ids self ids w = Run (Ok (map (handle_of g) ids, self)) w [].
Proof.
  intros Hg Hinit. induction ids as [|id ids IH]; cbn [get_shared_ids map].
  - reflexivity.
  - rewrite (bind_run _ _ _ _ _ _ (get_shared_id_ready self g w id Hg Hinit)).
    cbn [snd fst]. rewrite (bind_run _ _ _ _ _ _ IH). reflexivity.
Qed.

Lemma deferred_state_ready (g : fosphor_gl_state) (w : world) :
  gpu_ready (deferred_state g w) (deferred_world w).
Proof.
  unfold gpu_ready, deferred_state, deferred_world.
  cbn [init_complete tex_waterfall tex_histogram vbo_spectrum
       set_vbo_spectrum set_tex_histogram set_tex_waterfall set_init_complete
       textures buffers set_buffers set_textures live].
  pose proof (is_fresh ({[fresh (textures w)]} ∪ textures w)) as Hf.
  repeat split; [lia | set_solver | set_solver | | set_solver].
  intros [= Heq]. apply Hf. rewrite Heq. set_solver.
Qed.

(** C3.  On a constructed renderer whose device objects do not exist
    yet, the first call of the accessor, whatever its id, creates the
    waterfall texture, the histogram texture and the spectrum buffer,
    once each, and returns the handle its id selects; any later calls,
    in any order, issue no call at all, leave the renderer and the
    world as they are, and return for each id the handle selected from
    the same state block, hence the same handle every time. *)
Theorem shared_id_idempotent (self : fosphor) (g : fosphor_gl_state)
    (w : world) (id : Z) (ids : list Z) :
  gl self = Some g ->
  init_complete g = 0 ->
  env_map_buffer (env w) = true ->
  let first := fosphor_gl_get_shared_id self id w in
  exists (self1 : fosphor) (g1 : fosphor_gl_state),
    gl self1 = Some g1 /\
    outcome first = Ok (handle_of g1 id, self1) /\
    created (calls first) =
      [ obj_texture (tex_waterfall g1);
        obj_texture (tex_histogram g1);
        obj_buffer (vbo_spectrum g1) ] /\
    get_shared_ids self1 ids (after first) =
      Run (Ok (map (handle_of g1) ids, self1)) (after first) [].
Proof.
  intros Hg Hinit Hmap first.
  destruct (get_shared_id_first self g w id Hg Hinit Hmap) as (tr & E & Hc & _).
  subst first. rewrite E. cbn [outcome after calls].
  exists (set_gl self (Some (deferred_state g w))), (deferred_state g w).
  repeat split; [exact Hc|].
  apply get_shared_ids_ready; [reflexivity|].
  apply (deferred_state_ready g w).
Qed.

(** C9.  For an id that is none of the three ids of the enumeration the
    accessor returns 0: it neither fails nor faults (the renderer has a
    state block, and the deferred initialisation is done or can map its
    buffer). *)
Theorem unknown_id_gives_zero (self : fosphor) (g : fosphor_gl_state)
    (w : world) (id : Z) :
  gl self = Some g ->
  init_complete g <> 0 \/ env_map_buffer (env w) = true ->
  id <> GL_ID_TEX_WATERFALL ->
  id <> GL_ID_TEX_HISTOGRAM ->
  id <> GL_ID_VBO_SPECTRUM ->
  exists self' : fosphor,
    outcome (fosphor_gl_get_shared_id self id w) = Ok (0, self').
Proof.
  intros Hg Hcan Hw Hh Hv.
  assert (Hzero : forall g', handle_of g' id = 0).
  { intros g'. unfold handle_of.
    destruct (Z.eqb_spec id GL_ID_TEX_WATERFALL); [contradiction|].
    destruct (Z.eqb_spec id GL_ID_TEX_HISTOGRAM); [contradiction|].
    destruct (Z.eqb_spec id GL_ID_VBO_SPECTRUM); [contradiction|].
    reflexivity. }
  destruct (Z.eq_dec (init_complete g) 0) as [Hinit|Hinit].
  - destruct Hcan as [Hcan|Hmap]; [contradiction|].
    destruct (get_shared_id_first self g w id Hg Hinit Hmap) as (tr & E & _).
    rewrite E, Hzero. eexists. reflexivity.
  - rewrite (get_shared_id_ready self g w id Hg Hinit), Hzero.
    eexists. reflexivity.
Qed.

(** C10.  A call of the accessor with any id, known or not, on a
    renderer whose flag is only set when its device objects exist,
    returns with the flag set and the waterfall texture, the histogram
    texture and the spectrum buffer in existence (the buffer can be
    mapped). *)
Theorem shared_id_makes_ready (self : fosphor) (g : fosphor_gl_state)
    (w : world) (id : Z) :
  gl self = Some g ->
  consistent g w ->
  env_map_buffer (env w) = true ->
  exists (h : Z) (self' : fosphor) (g' : fosphor_gl_state),
    outcome (fosphor_gl_get_shared_id self id w) = Ok (h, self') /\
    gl self' = Some g' /\
    gpu_ready g' (after (fosphor_gl_get_shared_id self id w)).
Proof.
  intros Hg Hcons Hmap.
  destruct (Z.eq_dec (init_complete g) 0) as [Hinit|Hinit].
  - destruct (get_shared_id_first self g w id Hg Hinit Hmap) as (tr & E & _).
    rewrite E. cbn [outcome after].
    exists (handle_of (deferred_state g w) id),
           (set_gl self (Some (deferred_state g w))), (deferred_state g w).
    repeat split; apply (deferred_state_ready g w).
  - rewrite (get_shared_id_ready self g w id Hg Hinit). cbn [outcome after].
    exists (handle_of g id), self, g. repeat split; try assumption;
      apply (Hcons Hinit).
Qed.

(** *** Construction *)

Lemma do_cmap_generate_ok (gen : cmap_gen) (n old : Z) (w : world) :
  test (env_cmap_generate (env w) gen) = false ->
  do_cmap_generate gen n old w =
    Run (Ok (env_cmap_generate (env w) gen, Z.pos (fresh (textures w))))
        (set_textures w ({[ fresh (textures w) ]} ∪ textures w))
        [fosphor_gl_cmap_generate gen n (env_cmap_generate (env w) gen)
           (Z.pos (fresh (textures w)))].
Proof. intros E. unfold do_cmap_generate. rewrite E. reflexivity. Qed.

Lemma do_cmap_generate_fail (gen : cmap_gen) (n old : Z) (w : world) :
  test (env_cmap_generate (env w) gen) = true ->
  do_cmap_generate gen n old w =
    Run (Ok (env_cmap_generate (env w) gen, old)) w
        [fosphor_gl_cmap_generate gen n (env_cmap_generate (env w) gen) old].
Proof. intros E. unfold do_cmap_generate. rewrite E. reflexivity. Qed.

Lemma test_false (z : Z) : test z = false <-> z = 0.
Proof. unfold test. destruct (Z.eqb_spec z 0); cbn; split; congruence. Qed.

Lemma test_true (z : Z) : test z = true <-> z <> 0.
Proof. unfold test. destruct (Z.eqb_spec z 0); cbn; split; congruence. Qed.

Ltac init_step :=
  run_step ltac:(first
    [ apply do_cmap_generate_ok; eassumption
    | apply do_cmap_generate_fail; eassumption
    | apply release_run; reflexivity ]);
  cbn [env env_malloc env_glf_alloc env_resource_get env_glf_load_face_mem
       env_cmap_init env_cmap_generate negb fst snd
       textures buffers fonts cmap_ctxs
       set_textures set_buffers set_fonts set_cmap_ctxs
       font cmap_ctx set_font set_cmap_ctx gl_state_zero].

(** The condition at the end of the colormap setup. *)
Ltac settle_colormap_test E1 E2 :=
  rewrite !test_lor, ?E1, ?E2;
  cbn [Z.eqb]; change (test 0) with false; change (test 1) with true;
  cbn [orb].

Ltac init_run E1 E2 Elf :=
  unfold fosphor_gl_init;
  init_step;
  try (init_step; try change (test (Z.pos ?p)) with true;
       change (test 0) with false; cbn [negb]);
  try (init_step; try (init_step; rewrite Elf));
  try (do 3 init_step; settle_colormap_test E1 E2);
  try (unfold init_error; init_step);
  reflexivity.

(** Releasing the name that was handed out last gives back the names
    in use before. *)
Lemma fresh_drop (X : gset positive) :
  ({[ fresh X ]} ∪ X) ∖ {[ fresh X ]} = X.
Proof. pose proof (is_fresh X). set_solver. Qed.

Ltac sets_restored :=
  unfold released_world;
  cbn [drop_name env textures buffers fonts cmap_ctxs
       set_textures set_buffers set_fonts set_cmap_ctxs
       font cmap_ctx cmap_waterfall cmap_histogram tex_waterfall
       tex_histogram vbo_spectrum set_font set_cmap_ctx set_cmap_waterfall
       set_cmap_histogram set_tex_waterfall set_tex_histogram
       set_vbo_spectrum set_init_complete gl_state_zero];
  rewrite ?fresh_drop; reflexivity.

(** What a result that was tested says about the value. *)
Ltac use_results :=
  repeat match goal with
    | E : test ?z = true |- _ =>
        let E' := fresh "Enz" in
        assert (E' : (z =? 0) = false)
          by (apply Z.eqb_neq, test_true, E);
        apply test_true in E; rewrite ?E'
    | E : test ?z = false |- _ =>
        apply test_false in E; rewrite ?E
    end.

Ltac close_kind :=
  repeat split;
  first [ reflexivity | assumption | eexists; reflexivity
        | left; reflexivity | right; left; assumption
        | right; right; assumption ].

Ltac failure_kind :=
  first
    [ solve [left; close_kind]
    | right; split; [reflexivity|]; split; [reflexivity|];
      first [ solve [left; close_kind]
            | solve [right; left; close_kind]
            | solve [right; right; left; close_kind]
            | solve [right; right; right; close_kind] ] ].

(** C4.  [fosphor_gl_init] either returns 0 with the font, the colormap
    context and the two 256-entry lookup textures constructed (every
    step succeeded), or returns a non-zero code that tells the failed
    step ([-ENOMEM] when the block or the font cannot be allocated,
    [-ENOENT] when the font resource is not found, the loader's code
    when the face cannot be loaded, the colormap results or-ed together
    when the colormap setup fails); on failure everything created has
    been destroyed, last created first, the world is as it was, and the
    renderer has no state block left. *)
Theorem init_constructs_or_cleans_up (self : fosphor) (w : world) :
  let e := env w in
  let r := fosphor_gl_init self w in
  let colormap_rv :=
    Z.lor (Z.lor (if env_cmap_init e then 0 else 1)
                 (env_cmap_generate e fosphor_gl_cmap_waterfall))
          (env_cmap_generate e fosphor_gl_cmap_histogram) in
  (exists (g : fosphor_gl_state) (len : Z),
      (env_malloc e = true /\ env_glf_alloc e = true /\
       env_resource_get e = Some len /\ env_glf_load_face_mem e = 0 /\
       env_cmap_init e = true /\
       env_cmap_generate e fosphor_gl_cmap_waterfall = 0 /\
       env_cmap_generate e fosphor_gl_cmap_histogram = 0) /\
      outcome r = Ok (0, set_gl self (Some g)) /\
      init_complete g = 0 /\
      host_ready g (after r) /\
      calls r =
        [ malloc true;
          glf_alloc 8 GLF_FLG_LCD (font g);
          resource_get "DroidSansMonoDotted.ttf" (Some len);
          glf_load_face_mem (font g) len 0;
          fosphor_gl_cmap_init (cmap_ctx g);
          fosphor_gl_cmap_generate fosphor_gl_cmap_waterfall 256 0
            (cmap_waterfall g);
          fosphor_gl_cmap_generate fosphor_gl_cmap_histogram 256 0
            (cmap_histogram g) ]) \/
  (exists (rv : Z) (self' : fosphor),
      outcome r = Ok (rv, self') /\
      rv <> 0 /\
      after r = w /\
      destroyed (calls r) = rev (created (calls r)) /\
      ((env_malloc e = false /\ rv = - ENOMEM /\ self' = self) \/
       (env_malloc e = true /\ self' = set_gl self None /\
        ((env_glf_alloc e = false /\ rv = - ENOMEM) \/
         (env_glf_alloc e = true /\ env_resource_get e = None /\
          rv = - ENOENT) \/
         (env_glf_alloc e = true /\ is_Some (env_resource_get e) /\
          rv = env_glf_load_face_mem e) \/
         (env_glf_alloc e = true /\ is_Some (env_resource_get e) /\
          env_glf_load_face_mem e = 0 /\
          (env_cmap_init e = false \/
           env_cmap_generate e fosphor_gl_cmap_waterfall <> 0 \/
           env_cmap_generate e fosphor_gl_cmap_histogram <> 0) /\
          rv = colormap_rv))))).
Proof.
  intros e r colormap_rv. subst e r colormap_rv.
  destruct w as [[m fa rg lf ci cg mb] T B F C].
  cbn [env env_malloc env_glf_alloc env_resource_get env_glf_load_face_mem
       env_cmap_init env_cmap_generate].
  set (W := {| env := _ |}).
  destruct m; [destruct fa; [destruct rg as [len|];
    [destruct (test lf) eqn:Elf;
      [|destruct ci;
        destruct (test (cg fosphor_gl_cmap_waterfall)) eqn:E1;
        destruct (test (cg fosphor_gl_cmap_histogram)) eqn:E2]|]|]|].
  all: eassert (E : fosphor_gl_init self W = Run _ _ _)
         by (subst W; init_run E1 E2 Elf).
  all: rewrite E; clear E; cbn [outcome after calls app]; subst W;
    cbn [env env_malloc env_glf_alloc env_resource_get
         env_glf_load_face_mem env_cmap_init env_cmap_generate
         textures buffers fonts cmap_ctxs
         set_textures set_buffers set_fonts set_cmap_ctxs].
  (* every step succeeded *)
  5: { use_results. left. eexists _, len.
       split; [repeat split; first [reflexivity | assumption]|].
       split; [reflexivity|]. split; [reflexivity|].
       split; [|reflexivity].
       unfold host_ready.
       cbn [font cmap_ctx cmap_waterfall cmap_histogram set_font
            set_cmap_ctx set_cmap_waterfall set_cmap_histogram live
            textures fonts cmap_ctxs set_textures set_fonts set_cmap_ctxs].
       pose proof (is_fresh ({[fresh T]} ∪ T)) as Hf.
       repeat split; [set_solver | set_solver | set_solver | set_solver |].
       intros [= Heq]. apply Hf. rewrite Heq. set_solver. }
  (* a step failed *)
  all: right; eexists _, _; split; [reflexivity|].
  all: split;
    [ first [ intros Hz; vm_compute in Hz; discriminate
            | apply test_true;
              first [assumption | settle_colormap_test E1 E2; reflexivity] ]
    | ].
  all: split; [sets_restored|].
  all: unfold release_calls; cbn [created destroyed app]; use_results.
  all: split; [reflexivity|].
  all: failure_kind.
Qed.

(** A construction in which every step succeeds. *)
Lemma init_success_run (self : fosphor) (w : world) (len : Z) :
  env_malloc (env w) = true ->
  env_glf_alloc (env w) = true ->
  env_resource_get (env w) = Some len ->
  env_glf_load_face_mem (env w) = 0 ->
  env_cmap_init (env w) = true ->
  env_cmap_generate (env w) fosphor_gl_cmap_waterfall = 0 ->
  env_cmap_generate (env w) fosphor_gl_cmap_histogram = 0 ->
  fosphor_gl_init self w =
    Run (Ok (0, set_gl self (Some (constructed_state w))))
        (constructed_world w) (init_calls (constructed_state w) len).
Proof.
  destruct w as [[m fa rg lf ci cg mb] T B F C].
  cbn [env env_malloc env_glf_alloc env_resource_get env_glf_load_face_mem
       env_cmap_init env_cmap_generate].
  intros -> -> -> -> -> Hw Hh.
  assert (Elf : test 0 = false) by reflexivity.
  assert (E1 : test (cg fosphor_gl_cmap_waterfall) = false)
    by (apply test_false, Hw).
  assert (E2 : test (cg fosphor_gl_cmap_histogram) = false)
    by (apply test_false, Hh).
  match goal with
  | |- fosphor_gl_init _ ?W = _ =>
      eassert (E : fosphor_gl_init self W = Run _ _ _)
        by (init_run E1 E2 Elf)
  end.
  rewrite E. unfold init_calls, constructed_state, constructed_world.
  cbn [env env_cmap_generate textures buffers fonts cmap_ctxs font cmap_ctx
       cmap_waterfall cmap_histogram set_textures set_fonts set_cmap_ctxs
       app].
  rewrite Hw, Hh. reflexivity.
Qed.

Lemma created_init_calls (g : fosphor_gl_state) (len : Z) :
  font g <> 0 -> cmap_ctx g <> 0 ->
  created (init_calls g len) =
    [ obj_state; obj_font (font g); obj_cmap_ctx (cmap_ctx g);
      obj_texture (cmap_waterfall g); obj_texture (cmap_histogram g) ].
Proof.
  intros Hf Hc. unfold init_calls. cbn [created app if_nonzero].
  apply Z.eqb_neq in Hf, Hc. unfold if_nonzero. rewrite Hf, Hc. reflexivity.
Qed.

(** C5.  On a renderer that was never initialised [fosphor_gl_release]
    does nothing.  After a construction and any calls of the accessor it
    deletes the spectrum buffer, the histogram texture, the waterfall
    texture, the histogram and waterfall lookup textures, releases the
    colormap context, frees the font and the state block: the objects
    created, in the reverse of the order of their creation.  It leaves
    the world as it was before the construction and the renderer without
    a state block, so that a second release does nothing. *)
Theorem release_reverses_creation (self : fosphor) (w : world)
    (ids : list Z) :
  gl self = None ->
  all_succeed (env w) ->
  fosphor_gl_release self w = Run (Ok self) w [] /\
  exists (self1 self2 : fosphor) (hs : list Z) (g2 : fosphor_gl_state),
    let r1 := fosphor_gl_init self w in
    let r2 := get_shared_ids self1 ids (after r1) in
    let r3 := fosphor_gl_release self2 (after r2) in
    outcome r1 = Ok (0, self1) /\
    outcome r2 = Ok (hs, self2) /\
    gl self2 = Some g2 /\
    outcome r3 = Ok (set_gl self2 None) /\
    calls r3 =
      [ glDeleteBuffers (vbo_spectrum g2);
        glDeleteTextures (tex_histogram g2);
        glDeleteTextures (tex_waterfall g2);
        glDeleteTextures (cmap_histogram g2);
        glDeleteTextures (cmap_waterfall g2);
        fosphor_gl_cmap_release (cmap_ctx g2);
        glf_free (font g2);
        free ] /\
    destroyed (calls r3) = rev (created (calls r1 ++ calls r2)) /\
    after r3 = w /\
    fosphor_gl_release (set_gl self2 None) (after r3) =
      Run (Ok (set_gl self2 None)) (after r3) [].
Proof.
  intros Hnull (Hm & Hfa & [len Hrg] & Hlf & Hci & Hw & Hh & Hmap).
  split; [apply release_null, Hnull|].
  pose proof (init_success_run self w len Hm Hfa Hrg Hlf Hci Hw Hh) as E1.
  set (g1 := constructed_state w) in *. set (w1 := constructed_world w) in *.
  set (self1 := set_gl self (Some g1)) in *.
  assert (Hc1 : created (init_calls g1 len) =
                [ obj_state; obj_font (font g1); obj_cmap_ctx (cmap_ctx g1);
                  obj_texture (cmap_waterfall g1);
                  obj_texture (cmap_histogram g1) ])
    by (apply created_init_calls; discriminate).
  destruct ids as [|id ids].
  - exists self1, self1, [], g1. cbv zeta. rewrite E1.
    cbn [outcome after calls get_shared_ids ret].
    rewrite (release_run self1 g1 w1 eq_refl). cbn [outcome after calls].
    do 5 (split; [reflexivity|]).
    split; [rewrite app_nil_r, Hc1; reflexivity|].
    split; [|apply release_null; reflexivity].
    subst g1 w1. destruct w as [e T B F C].
    unfold constructed_state, constructed_world. sets_restored.
  - destruct (get_shared_id_first self1 g1 w1 id eq_refl eq_refl Hmap)
      as (tr & E2 & Hc2 & Hd2).
    set (g2 := deferred_state g1 w1) in *.
    set (w2 := deferred_world w1) in *.
    pose (self2 := set_gl self1 (Some g2)).
    assert (E3 : get_shared_ids self1 (id :: ids) w1 =
                 Run (Ok (handle_of g2 id :: map (handle_of g2) ids, self2))
                     w2 (tr ++ [] ++ [])).
    { cbn [get_shared_ids]. eapply bind_intro; [exact E2|]. cbn [fst snd].
      eapply bind_intro;
        [ apply (get_shared_ids_ready self2 g2 w2 ids eq_refl),
            (deferred_state_ready g1 w1)
        | reflexivity ]. }
    exists self1, self2, (handle_of g2 id :: map (handle_of g2) ids), g2.
    cbv zeta. rewrite E1. cbn [outcome after calls]. rewrite E3.
    cbn [outcome after calls].
    rewrite (release_run self2 g2 w2 eq_refl). cbn [outcome after calls].
    do 5 (split; [reflexivity|]).
    split; [rewrite !app_nil_r, created_app, Hc1, Hc2; reflexivity|].
    split; [|apply release_null; reflexivity].
    subst g2 w2 g1 w1. destruct w as [e T B F C].
    unfold deferred_state, deferred_world, constructed_state,
      constructed_world.
    cbn [set_vbo_spectrum set_tex_histogram set_tex_waterfall
         set_init_complete].
    sets_restored.
Qed.

End Lifecycle.

(** ** Further properties of the lifecycle *)

Section Tiles.

Lemma upload_tiles_app (a b : list call) :
  upload_tiles (a ++ b) = upload_tiles a ++ upload_tiles b.
Proof.
  induction a as [|c a IH]; [reflexivity|].
  destruct c; cbn [upload_tiles app]; rewrite ?IH; reflexivity.
Qed.

(** The tiles of the two loops, row by row. *)
Lemma upload_tiles_tile_uploads (width height : Z) :
  upload_tiles (tile_uploads width height) =
    flat_map (fun y =>
      map (fun x => (x, y, (if x + 16 >? width then width - x else 16),
                           (if y + 16 >? height then height - y else 16)))
        (tile_starts width))
      (tile_starts height).
Proof.
  unfold tile_uploads.
  induction (tile_starts height) as [|y ys IH]; [reflexivity|].
  cbn [flat_map]. rewrite upload_tiles_app, IH.
  apply (f_equal (fun l => l ++ _)). clear IH.
  induction (tile_starts width) as [|x xs IHx]; [reflexivity|].
  cbn [flat_map map app upload_tiles]. rewrite IHx. reflexivity.
Qed.

Lemma tile_uploads_elem (width height : Z) (t : Z * Z * Z * Z) :
  t ∈ upload_tiles (tile_uploads width height) <->
  exists x y,
    t = (x, y, (if x + 16 >? width then width - x else 16),
               (if y + 16 >? height then height - y else 16)) /\
    x ∈ tile_starts width /\ y ∈ tile_starts height.
Proof.
  rewrite upload_tiles_tile_uploads, list_elem_of_In, in_flat_map. split.
  - intros (y & Hy & Ht). apply in_map_iff in Ht as (x & <- & Hx).
    exists x, y. rewrite !list_elem_of_In. auto.
  - intros (x & y & -> & Hx & Hy). exists y.
    rewrite list_elem_of_In in Hx, Hy. split; [exact Hy|].
    apply in_map_iff. exists x. auto.
Qed.

Lemma tile_starts_NoDup (n : Z) : NoDup (tile_starts n).
Proof.
  unfold tile_starts.
  assert (Hi : Inj eq eq (fun i : nat => 16 * Z.of_nat i))
    by (intros a b Hab; lia).
  apply (NoDup_fmap_2 _), NoDup_seq.
Qed.

Lemma NoDup_rows {A B C : Type} (f : A -> B -> C) (xs : list A) (ys : list B) :
  (forall x y x' y', f x y = f x' y' -> x = x' /\ y = y') ->
  NoDup xs -> NoDup ys ->
  NoDup (flat_map (fun y => map (fun x => f x y) xs) ys).
Proof.
  intros Hinj Hxs Hys. induction Hys as [|y ys Hy Hys IH]; cbn [flat_map].
  - constructor.
  - apply NoDup_app. split; [|split; [|exact IH]].
    + assert (Hi : Inj eq eq (fun x => f x y))
        by (intros a b Hab; apply Hinj in Hab; tauto).
      apply (NoDup_fmap_2 (fun x => f x y)), Hxs.
    + intros c Hc Hc'. apply list_elem_of_In, in_map_iff in Hc as (x & <- & _).
      apply list_elem_of_In, in_flat_map in Hc' as (y' & Hy' & Hc').
      apply in_map_iff in Hc' as (x' & Heq & _).
      apply Hinj in Heq as [_ ->]. apply Hy, list_elem_of_In, Hy'.
Qed.

End Tiles.

Section LifecycleExtras.

Context {hdr : Headers}.

(** The tile loops of [gl_tex2d_float_clear] cut the image into tiles
    that lie inside it and fit the 16 by 16 scratch buffer; no tile is
    uploaded twice, and every texel of the image lies in exactly one.
    The sizes are such that the loop counters, which advance by 16, stay
    within [int]. *)
Theorem clear_tiles_partition (tex_id width height : Z) (w : world) :
  width <= INT_MAX - 15 -> height <= INT_MAX - 15 ->
  let ts := upload_tiles (calls (gl_tex2d_float_clear tex_id width height w)) in
  NoDup ts /\
  (forall t, t ∈ ts -> tile_fits width height t) /\
  (forall px py : Z, 0 <= px < width -> 0 <= py < height ->
     exists t, t ∈ ts /\ covers t px py /\
               forall t', t' ∈ ts -> covers t' px py -> t' = t).
Proof.
  intros _ _. rewrite gl_tex2d_float_clear_run. cbn [calls upload_tiles].
  split; [|split].
  - rewrite upload_tiles_tile_uploads.
    apply (NoDup_rows (fun x y => (x, y, _, _)));
      [intros x y x' y' [= -> ->]; auto | apply tile_starts_NoDup ..].
  - intros t Ht. apply tile_uploads_elem in Ht as (x & y & -> & Hx & Hy).
    apply tile_starts_spec in Hx, Hy. unfold tile_fits.
    destruct (Z.gtb_spec (x + 16) width), (Z.gtb_spec (y + 16) height); lia.
  - intros px py Hpx Hpy.
    set (x := 16 * (px / 16)). set (y := 16 * (py / 16)).
    assert (Hx : 0 <= x <= px /\ px < x + 16 /\ x mod 16 = 0)
      by (subst x; Z.div_mod_to_equations; lia).
    assert (Hy : 0 <= y <= py /\ py < y + 16 /\ y mod 16 = 0)
      by (subst y; Z.div_mod_to_equations; lia).
    eexists. split; [|split].
    + apply tile_uploads_elem. exists x, y.
      split; [reflexivity|]. rewrite !tile_starts_spec. lia.
    + unfold covers.
      destruct (Z.gtb_spec (x + 16) width), (Z.gtb_spec (y + 16) height); lia.
    + intros t' Ht' Hc.
      apply tile_uploads_elem in Ht' as (x' & y' & -> & Hx' & Hy').
      apply tile_starts_spec in Hx', Hy'. unfold covers in Hc.
      assert (x' = x /\ y' = y) as [-> ->]; [|reflexivity].
      destruct (Z.gtb_spec (x' + 16) width), (Z.gtb_spec (y' + 16) height);
        subst x y; Z.div_mod_to_equations; lia.
Qed.

(** The loops upload nothing exactly when the image has no texel: a
    width or a height of 0 or less (sizes as above). *)
Theorem clear_uploads_nothing_iff_empty (tex_id width height : Z) (w : world) :
  width <= INT_MAX - 15 -> height <= INT_MAX - 15 ->
  upload_tiles (calls (gl_tex2d_float_clear tex_id width height w)) = [] <->
  width <= 0 \/ height <= 0.
Proof.
  intros _ _. rewrite gl_tex2d_float_clear_run. cbn [calls upload_tiles].
  split.
  - intros Hnil.
    destruct (Z_le_gt_dec width 0) as [|Hw]; [auto|].
    destruct (Z_le_gt_dec height 0) as [|Hh]; [auto|]. exfalso.
    assert (Hin : (0, 0, (if 0 + 16 >? width then width - 0 else 16),
                         (if 0 + 16 >? height then height - 0 else 16))
                  ∈ upload_tiles (tile_uploads width height)).
    { apply tile_uploads_elem. exists 0, 0. split; [reflexivity|].
      rewrite !tile_starts_spec. repeat split; lia. }
    rewrite Hnil in Hin. inversion Hin.
  - intros Hempty.
    destruct (upload_tiles (tile_uploads width height)) as [|t ts] eqn:E;
      [reflexivity|exfalso].
    assert (Hin : t ∈ upload_tiles (tile_uploads width height))
      by (rewrite E; left).
    apply tile_uploads_elem in Hin as (x & y & _ & Hx & Hy).
    apply tile_starts_spec in Hx, Hy. lia.
Qed.


(** *** The deferred initialisation, call by call *)

Lemma bind_crash_intro {A B : Type} (m : M A) (k : A -> M B) (w w1 : world)
    (c : crash) (tr : list call) :
  m w = Run (Crash c) w1 tr ->
  bind m k w = Run (Crash c) w1 tr.
Proof. intros E. unfold bind. rewrite E. reflexivity. Qed.

Lemma gl_vbo_clear_abort_run (vbo_id size : Z) (w : world) :
  env_map_buffer (env w) = false ->
  gl_vbo_clear vbo_id size w =
    Run (Crash Aborted) w
      [ glBindBuffer GL_ARRAY_BUFFER vbo_id;
        glMapBuffer GL_ARRAY_BUFFER GL_WRITE_ONLY false ].
Proof.
  intros Hmap. unfold gl_vbo_clear, bind, emit, do_glMapBuffer.
  cbn [outcome after calls]. rewrite Hmap. reflexivity.
Qed.

Lemma deferred_init_calls (self : fosphor) (g : fosphor_gl_state)
    (w : world) :
  gl self = Some g ->
  init_complete g = 0 ->
  env_map_buffer (env w) = true ->
  gl_deferred_init self w =
    Run (Ok (set_gl self (Some (deferred_state g w))))
        (deferred_world w) (deferred_calls w true).
Proof.
  intros Hg Hinit Hmap.
  eassert (E : gl_deferred_init self w = Run _ _ _).
  { unfold gl_deferred_init. rewrite Hg.
    run_step fail. rewrite Hinit.
    change (test 0) with false. cbv iota.
    do 20 run_step ltac:(first [ apply gl_tex2d_float_clear_run
                               | apply gl_vbo_clear_run; exact Hmap ]).
    reflexivity. }
  rewrite E. unfold deferred_calls. cbn [app]. rewrite <- ?app_assoc.
  reflexivity.
Qed.

Lemma deferred_init_abort_calls (self : fosphor) (g : fosphor_gl_state)
    (w : world) :
  gl self = Some g ->
  init_complete g = 0 ->
  env_map_buffer (env w) = false ->
  gl_deferred_init self w =
    Run (Crash Aborted) (deferred_world w) (deferred_calls w false).
Proof.
  intros Hg Hinit Hmap.
  eassert (E : gl_deferred_init self w = Run _ _ _).
  { unfold gl_deferred_init. rewrite Hg.
    run_step fail. rewrite Hinit.
    change (test 0) with false. cbv iota.
    do 19 run_step ltac:(apply gl_tex2d_float_clear_run).
    eapply bind_crash_intro, gl_vbo_clear_abort_run. exact Hmap. }
  rewrite E. unfold deferred_calls. cbn [app]. rewrite <- ?app_assoc.
  rewrite ?app_nil_r. reflexivity.
Qed.


Lemma get_shared_id_first_calls (self : fosphor) (g : fosphor_gl_state)
    (w : world) (id : Z) :
  gl self = Some g ->
  init_complete g = 0 ->
  env_map_buffer (env w) = true ->
  fosphor_gl_get_shared_id self id w =
    Run (Ok (handle_of (deferred_state g w) id,
             set_gl self (Some (deferred_state g w))))
        (deferred_world w) (deferred_calls w true).
Proof.
  intros Hg Hinit Hmap.
  rewrite <- (app_nil_r (deferred_calls w true)).
  unfold fosphor_gl_get_shared_id, handle_of.
  eapply bind_intro; [apply deferred_init_calls; eassumption|].
  cbn [set_gl gl deref]. unfold bind, ret. cbn [outcome after calls].
  repeat match goal with |- context [if ?c then _ else _] => destruct c end;
    reflexivity.
Qed.

Lemma get_shared_id_abort_calls (self : fosphor) (g : fosphor_gl_state)
    (w : world) (id : Z) :
  gl self = Some g ->
  init_complete g = 0 ->
  env_map_buffer (env w) = false ->
  fosphor_gl_get_shared_id self id w =
    Run (Crash Aborted) (deferred_world w) (deferred_calls w false).
Proof.
  intros Hg Hinit Hmap. unfold fosphor_gl_get_shared_id.
  eapply bind_crash_intro, deferred_init_abort_calls; eassumption.
Qed.

(** The calls on a texture or a buffer among uploads to the bound
    texture. *)
Lemma texture_ops_uploads (bound tex : Z) (l rest : list call) :
  Forall (fun c => exists x y cw ch,
            c = glTexSubImage2D GL_TEXTURE_2D 0 x y cw ch GL_RED GL_FLOAT) l ->
  texture_ops_from bound tex (l ++ rest) =
    (if bound =? tex then l else []) ++ texture_ops_from bound tex rest.
Proof.
  induction 1 as [|c l (x & y & cw & ch & ->) _ IH]; cbn [app].
  - destruct (bound =? tex); reflexivity.
  - cbn [texture_ops_from is_texture_op andb]. rewrite IH.
    destruct (bound =? tex); reflexivity.
Qed.

Lemma buffer_ops_uploads (bound buf : Z) (l rest : list call) :
  Forall (fun c => exists x y cw ch,
            c = glTexSubImage2D GL_TEXTURE_2D 0 x y cw ch GL_RED GL_FLOAT) l ->
  buffer_ops_from bound buf (l ++ rest) = buffer_ops_from bound buf rest.
Proof.
  induction 1 as [|c l (x & y & cw & ch & ->) _ IH]; cbn [app]; [reflexivity|].
  cbn [buffer_ops_from is_buffer_op andb app]. exact IH.
Qed.

Lemma tile_uploads_to_bound_texture (width height : Z) :
  Forall (fun c => exists x y cw ch,
            c = glTexSubImage2D GL_TEXTURE_2D 0 x y cw ch GL_RED GL_FLOAT)
    (tile_uploads width height).
Proof.
  unfold tile_uploads. apply Forall_flat_map, Forall_forall. intros y _.
  apply Forall_flat_map, Forall_forall. intros x _.
  repeat constructor. eexists _, _, _, _. reflexivity.
Qed.

Lemma wrap32_id (z : Z) : - 2 ^ 31 <= z < 2 ^ 31 -> wrap32 z = z.
Proof. intros Hz. unfold wrap32. rewrite Z.mod_small; lia. Qed.

(** The two names GL hands out for the textures differ. *)
Lemma fresh_twice (X : gset positive) :
  fresh ({[ fresh X ]} ∪ X) <> fresh X.
Proof.
  intros Heq. apply (is_fresh ({[ fresh X ]} ∪ X)). rewrite Heq. set_solver.
Qed.



(** The accessor only ever adds device objects: whenever it returns, no
    call of it has destroyed anything, every texture and buffer in use
    before is still in use, fonts and colormap contexts are the same,
    and in the renderer only the flag and the three device handles of
    the state block can have changed. *)
Theorem accessor_keeps_what_exists (self : fosphor) (g : fosphor_gl_state)
    (w : world) (id : Z) :
  gl self = Some g ->
  init_complete g <> 0 \/ env_map_buffer (env w) = true ->
  let r := fosphor_gl_get_shared_id self id w in
  exists (h : Z) (self1 : fosphor) (g1 : fosphor_gl_state),
    outcome r = Ok (h, self1) /\ gl self1 = Some g1 /\
    destroyed (calls r) = [] /\
    keeps_objects w (after r) /\
    fonts (after r) = fonts w /\ cmap_ctxs (after r) = cmap_ctxs w /\
    env (after r) = env w /\
    power self1 = power self /\ frequency self1 = frequency self /\
    font g1 = font g /\ cmap_ctx g1 = cmap_ctx g /\
    cmap_waterfall g1 = cmap_waterfall g /\
    cmap_histogram g1 = cmap_histogram g.
Proof.
  intros Hg Hcan r. subst r.
  destruct (Z.eq_dec (init_complete g) 0) as [Hinit|Hinit].
  - destruct Hcan as [Hcan|Hmap]; [contradiction|].
    rewrite (get_shared_id_first_calls self g w id Hg Hinit Hmap).
    cbn [outcome after calls]. eexists _, _, _.
    split; [reflexivity|]. split; [reflexivity|].
    split.
    { unfold deferred_calls. rewrite !destroyed_app. cbn [destroyed app].
      rewrite !destroyed_uploads by apply tile_uploads_are_uploads.
      reflexivity. }
    split.
    { unfold keeps_objects, deferred_world.
      cbn [textures buffers fonts cmap_ctxs set_buffers set_textures].
      repeat split; set_solver. }
    repeat split.
  - rewrite (get_shared_id_ready self g w id Hg Hinit).
    cbn [outcome after calls]. exists (handle_of g id), self, g.
    split; [reflexivity|]. split; [exact Hg|]. split; [reflexivity|].
    split; [repeat split; reflexivity|]. repeat split.
Qed.

(** The handles of the first call are new: for the id of either texture
    the accessor returns a texture name that was not in use before the
    call and is in use after it, and for the id of the buffer a buffer
    name of which the same holds. *)
Theorem first_call_returns_new_name (self : fosphor) (g : fosphor_gl_state)
    (w : world) (id : Z) :
  gl self = Some g ->
  init_complete g = 0 ->
  env_map_buffer (env w) = true ->
  let r := fosphor_gl_get_shared_id self id w in
  exists (h : Z) (self1 : fosphor),
    outcome r = Ok (h, self1) /\
    (id = GL_ID_TEX_WATERFALL \/ id = GL_ID_TEX_HISTOGRAM ->
       0 < h /\ ~ live h (textures w) /\ live h (textures (after r))) /\
    (id = GL_ID_VBO_SPECTRUM ->
     id <> GL_ID_TEX_WATERFALL -> id <> GL_ID_TEX_HISTOGRAM ->
       0 < h /\ ~ live h (buffers w) /\ live h (buffers (after r))).
Proof.
  intros Hg Hinit Hmap r. subst r.
  rewrite (get_shared_id_first_calls self g w id Hg Hinit Hmap).
  cbn [outcome after]. eexists _, _. split; [reflexivity|].
  pose proof (is_fresh (textures w)) as Hf1.
  pose proof (is_fresh ({[ fresh (textures w) ]} ∪ textures w)) as Hf2.
  pose proof (is_fresh (buffers w)) as Hfb.
  unfold handle_of, deferred_state, deferred_world.
  cbn [tex_waterfall tex_histogram vbo_spectrum set_vbo_spectrum
       set_tex_histogram set_tex_waterfall set_init_complete
       textures buffers set_buffers set_textures].
  split.
  - intros Hid.
    destruct (Z.eqb_spec id GL_ID_TEX_WATERFALL) as [_|Hw];
      [|destruct (Z.eqb_spec id GL_ID_TEX_HISTOGRAM) as [_|Hh];
        [|destruct Hid; contradiction]];
      cbn [live]; (split; [lia|]); split; set_solver.
  - intros Hid Hw Hh.
    destruct (Z.eqb_spec id GL_ID_TEX_WATERFALL); [contradiction|].
    destruct (Z.eqb_spec id GL_ID_TEX_HISTOGRAM); [contradiction|].
    destruct (Z.eqb_spec id GL_ID_VBO_SPECTRUM); [|contradiction].
    cbn [live]. (split; [lia|]); split; set_solver.
Qed.

(** When the buffer cannot be mapped the first call of the accessor
    does not return: it ends in [abort()] once the two textures and the
    buffer have been created, right after the mapping that failed, and
    without having deleted anything, so that the three objects stay in
    use. *)
Theorem map_failure_aborts_after_creation (self : fosphor)
    (g : fosphor_gl_state) (w : world) (id : Z) :
  gl self = Some g ->
  init_complete g = 0 ->
  env_map_buffer (env w) = false ->
  let r := fosphor_gl_get_shared_id self id w in
  outcome r = Crash Aborted /\
  last (calls r) = Some (glMapBuffer GL_ARRAY_BUFFER GL_WRITE_ONLY false) /\
  destroyed (calls r) = [] /\
  exists t1 t2 b : Z,
    created (calls r) = [obj_texture t1; obj_texture t2; obj_buffer b] /\
    t1 <> t2 /\
    ~ live t1 (textures w) /\ ~ live t2 (textures w) /\
    ~ live b (buffers w) /\
    live t1 (textures (after r)) /\ live t2 (textures (after r)) /\
    live b (buffers (after r)).
Proof.
  intros Hg Hinit Hmap r. subst r.
  rewrite (get_shared_id_abort_calls self g w id Hg Hinit Hmap).
  cbn [outcome after calls]. split; [reflexivity|].
  split.
  { unfold deferred_calls. rewrite app_nil_r, !app_assoc.
    match goal with
    | |- last (?l ++ [?a; ?b; ?c; ?d; ?e]) = _ =>
        change (l ++ [a; b; c; d; e]) with (l ++ [a; b; c; d] ++ [e])
    end.
    rewrite app_assoc. apply last_snoc. }
  split.
  { unfold deferred_calls. rewrite !destroyed_app. cbn [destroyed app].
    rewrite !destroyed_uploads by apply tile_uploads_are_uploads.
    reflexivity. }
  eexists _, _, _. split.
  { unfold deferred_calls. rewrite !created_app. cbn [created app].
    rewrite !created_uploads by apply tile_uploads_are_uploads.
    reflexivity. }
  pose proof (is_fresh (textures w)) as Hf1.
  pose proof (is_fresh ({[ fresh (textures w) ]} ∪ textures w)) as Hf2.
  pose proof (is_fresh (buffers w)) as Hfb.
  unfold deferred_world.
  cbn [textures buffers set_buffers set_textures live].
  split; [intros [= Heq]; apply Hf2; rewrite <- Heq; set_solver|].
  repeat split; set_solver.
Qed.


(** *** Teardown and construction *)

Lemma live_drop_name (n m : Z) (X : gset positive) :
  live n (drop_name m X) <-> live n X /\ n <> m.
Proof.
  destruct n as [|p|p], m as [|q|q]; cbn [live drop_name];
    try (split; [intros H; first [contradiction | split; [exact H|lia]]
                |intros [H _]; exact H]).
  rewrite elem_of_difference, not_elem_of_singleton.
  split; intros [H Hne]; (split; [exact H|congruence]).
Qed.

(** [fosphor_gl_release] frees the objects of its own state block and
    no other: what is in use afterwards is what was in use before, less
    the two textures and the two lookup textures, the buffer, the font
    and the colormap context the block names; this holds for any block,
    complete or not. *)
Theorem release_frees_only_its_block (self : fosphor)
    (g : fosphor_gl_state) (w : world) :
  gl self = Some g ->
  let w' := after (fosphor_gl_release self w) in
  (forall n, live n (textures w') <->
     live n (textures w) /\ n <> tex_histogram g /\ n <> tex_waterfall g /\
     n <> cmap_histogram g /\ n <> cmap_waterfall g) /\
  (forall n, live n (buffers w') <->
     live n (buffers w) /\ n <> vbo_spectrum g) /\
  (forall n, live n (fonts w') <-> live n (fonts w) /\ n <> font g) /\
  (forall n, live n (cmap_ctxs w') <->
     live n (cmap_ctxs w) /\ n <> cmap_ctx g) /\
  env w' = env w.
Proof.
  intros Hg w'. subst w'. rewrite (release_run self g w Hg).
  cbn [after]. unfold released_world. cbn [textures buffers fonts cmap_ctxs env].
  split; [|split; [|split; [|split; [|reflexivity]]]]; intros n;
    rewrite !live_drop_name; tauto.
Qed.

(** Once released, or never initialised, a renderer has no state block:
    the accessor then dereferences NULL before it issues any call, and so
    does the draw of a frame with any layer switched on. *)
Theorem use_after_release_faults (self : fosphor) (render : fosphor_render)
    (w : world) (id : Z) :
  has render FRO_WATERFALL = true \/ has render FRO_HISTO = true \/
    has render FRO_LIVE = true \/ has render FRO_MAX_HOLD = true ->
  let r := fosphor_gl_release self w in
  exists self1 : fosphor,
    outcome r = Ok self1 /\ gl self1 = None /\
    fosphor_gl_get_shared_id self1 id (after r) =
      Run (Crash NullDeref) (after r) [] /\
    outcome (fosphor_gl_draw self1 render (after r)) = Crash NullDeref.
Proof.
  intros Hreq r.
  assert (Hnull : forall s w0, gl s = None ->
            fosphor_gl_get_shared_id s id w0 = Run (Crash NullDeref) w0 []).
  { intros s w0 Hs. unfold fosphor_gl_get_shared_id, gl_deferred_init.
    rewrite Hs. reflexivity. }
  subst r. destruct (gl self) as [g|] eqn:Hg.
  - rewrite (release_run self g w Hg). cbn [outcome after].
    exists (set_gl self None). split; [reflexivity|]. split; [reflexivity|].
    split; [apply Hnull; reflexivity|].
    apply draw_without_state_faults; [reflexivity|exact Hreq].
  - rewrite (release_null self w Hg). cbn [outcome after].
    exists self. split; [reflexivity|]. split; [exact Hg|].
    split; [apply Hnull, Hg|].
    apply draw_without_state_faults; [exact Hg|exact Hreq].
Qed.

Lemma constructed_host_ready (w : world) :
  host_ready (constructed_state w) (constructed_world w).
Proof.
  unfold host_ready, constructed_state, constructed_world.
  cbn [font cmap_ctx cmap_waterfall cmap_histogram live
       textures fonts cmap_ctxs].
  pose proof (fresh_twice (textures w)) as Hne.
  repeat split; [set_solver | set_solver | set_solver | set_solver |].
  congruence.
Qed.

Lemma constructed_names_new (w : world) :
  ~ live (font (constructed_state w)) (fonts w) /\
  ~ live (cmap_ctx (constructed_state w)) (cmap_ctxs w) /\
  ~ live (cmap_waterfall (constructed_state w)) (textures w) /\
  ~ live (cmap_histogram (constructed_state w)) (textures w).
Proof.
  unfold constructed_state.
  cbn [font cmap_ctx cmap_waterfall cmap_histogram live].
  pose proof (is_fresh (fonts w)). pose proof (is_fresh (cmap_ctxs w)).
  pose proof (is_fresh (textures w)).
  pose proof (is_fresh ({[ fresh (textures w) ]} ∪ textures w)).
  repeat split; set_solver.
Qed.

Lemma host_ready_kept (g : fosphor_gl_state) (w w' : world) :
  host_ready g w -> keeps_objects w w' -> host_ready g w'.
Proof.
  unfold host_ready, keeps_objects, live.
  intros (Hf & Hc & Hw & Hh & Hne) (Ht & _ & Hfs & Hcs).
  destruct (font g), (cmap_ctx g), (cmap_waterfall g), (cmap_histogram g);
    try contradiction.
  repeat split; [apply Hfs, Hf | apply Hcs, Hc | apply Ht, Hw | apply Ht, Hh
                | exact Hne].
Qed.

Lemma constructed_keeps (w : world) : keeps_objects w (constructed_world w).
Proof.
  unfold keeps_objects, constructed_world.
  cbn [textures buffers fonts cmap_ctxs]. repeat split; set_solver.
Qed.

Lemma release_undoes_construction (w : world) :
  released_world (constructed_state w) (constructed_world w) = w.
Proof.
  destruct w as [e T B F C].
  unfold released_world, constructed_state, constructed_world.
  cbn [drop_name env textures buffers fonts cmap_ctxs
       font cmap_ctx cmap_waterfall cmap_histogram tex_waterfall
       tex_histogram vbo_spectrum].
  rewrite ?fresh_drop. reflexivity.
Qed.

(** [fosphor_gl_init] does not look at the state block a renderer
    already has.  A second construction builds a block of objects that
    are all new and leaves the objects of the first in use; the renderer
    then refers to the second block only, and a release frees the
    objects of the second block and no others: the world is again as the
    first construction left it, the first font, colormap context and
    lookup textures still in use, and the renderer has no state block. *)
Theorem second_init_leaks_first (self : fosphor) (w : world) :
  all_succeed (env w) ->
  let r1 := fosphor_gl_init self w in
  exists (self1 self2 : fosphor) (g1 g2 : fosphor_gl_state),
    let r2 := fosphor_gl_init self1 (after r1) in
    let r3 := fosphor_gl_release self2 (after r2) in
    outcome r1 = Ok (0, self1) /\ gl self1 = Some g1 /\
    outcome r2 = Ok (0, self2) /\ gl self2 = Some g2 /\
    destroyed (calls r2) = [] /\
    (~ live (font g2) (fonts (after r1)) /\
     ~ live (cmap_ctx g2) (cmap_ctxs (after r1)) /\
     ~ live (cmap_waterfall g2) (textures (after r1)) /\
     ~ live (cmap_histogram g2) (textures (after r1))) /\
    host_ready g1 (after r2) /\ host_ready g2 (after r2) /\
    outcome r3 = Ok (set_gl self2 None) /\
    after r3 = after r1 /\
    host_ready g1 (after r3).
Proof.
  intros (Hm & Hfa & [len Hrg] & Hlf & Hci & Hw & Hh & Hmap) r1. subst r1.
  rewrite (init_success_run self w len Hm Hfa Hrg Hlf Hci Hw Hh).
  cbn [outcome after calls].
  exists (set_gl self (Some (constructed_state w))),
         (set_gl (set_gl self (Some (constructed_state w)))
                 (Some (constructed_state (constructed_world w)))),
         (constructed_state w), (constructed_state (constructed_world w)).
  cbv zeta.
  rewrite (init_success_run _ (constructed_world w) len Hm Hfa Hrg Hlf Hci Hw Hh).
  cbn [outcome after calls].
  rewrite (release_run
             (set_gl (set_gl self (Some (constructed_state w)))
                     (Some (constructed_state (constructed_world w))))
             (constructed_state (constructed_world w)) _ eq_refl).
  cbn [outcome after calls]. rewrite release_undoes_construction.
  do 4 (split; [reflexivity|]).
  split; [reflexivity|].
  split; [apply constructed_names_new|].
  split; [apply (host_ready_kept _ _ _ (constructed_host_ready w)),
            constructed_keeps|].
  split; [apply constructed_host_ready|].
  split; [reflexivity|]. split; [reflexivity|].
  apply constructed_host_ready.
Qed.

End LifecycleExtras.

(** ** The theorems at work

    A renderer of 1024 bins: a successful construction in an empty world,
    then the first call of the accessor. *)

Section Examples.

#[local] Existing Instance fosphor_headers.

Lemma draw_ends_with_finish_witness :
  is_Some (gl self_ready) /\
  outcome (fosphor_gl_draw self_ready render_full world_ready) = Ok tt /\
  last (calls (fosphor_gl_draw self_ready render_full world_ready))
    = Some glFinish /\
  count_finish (calls (fosphor_gl_draw self_ready render_full world_ready))
    = 1%nat.
Proof.
  assert (Hs : is_Some (gl self_ready)) by (exists state_ready; reflexivity).
  split; [exact Hs|].
  apply (draw_ends_with_finish self_ready render_full world_ready
           (or_introl Hs)).
Defined.

Lemma spectrum_polyline_run_witness :
  gl self_ready = Some state_ready /\
  has render_full FRO_LIVE = true /\
  FOSPHOR_FFT_LEN = 2 ^ 10 /\
  draw_arrays (calls (fosphor_gl_draw self_ready render_full world_ready)) =
    [(GL_LINE_STRIP, 1, 1023); (GL_LINE_STRIP, 1025, 1023)].
Proof.
  assert (Hl : has render_full FRO_LIVE = true) by reflexivity.
  split; [reflexivity|]. split; [exact Hl|]. split; [reflexivity|].
  destruct (spectrum_polyline_run self_ready state_ready render_full
              world_ready eq_refl (or_introl Hl)) as [Hrun Hfull].
  destruct (Hfull 10 ltac:(lia) eq_refl eq_refl eq_refl) as (H1 & H2 & H3).
  rewrite Hrun, H3, H1. reflexivity.
Defined.

Lemma quad_texture_coordinates_witness :
  gl self_ready = Some state_ready /\
  _wf_pos render_full = 5 /\
  wf_span render_full = F32.of_Z 10 /\
  (F32.to_Q (F32.of_Z 5 / F32.of_Z 1024 - F32.of_Z 10)%f32
     == -10235 # 1024)%Q /\
  (F32.to_Q (F32.of_Z 5 / F32.of_Z 1024)%f32 -
   F32.to_Q (F32.of_Z 5 / F32.of_Z 1024 - F32.of_Z 10)%f32 == 10)%Q.
Proof.
  split; [reflexivity|]. split; [reflexivity|]. split; [reflexivity|].
  destruct (quad_texture_coordinates self_ready state_ready render_full
              world_ready eq_refl) as (_ & Hex & _).
  apply (Hex eq_refl eq_refl).
Defined.

(** C6, as stated, fails: at write position 512 with a span of [0.1f]
    the waterfall quad gets [v_end = 0.5] and
    [v_start = 13421773 / 2^25]; their difference is
    [3355443 / 2^25], not the span [13421773 / 2^27]. *)
Lemma waterfall_span_not_exact :
  exists u0 u1 v_start v_end : f32,
    _wf_pos render_waterfall_only = 512 /\
    wf_span render_waterfall_only = F32.lit 1 10 /\
    tex_coords
      (calls (fosphor_gl_draw self_ready render_waterfall_only world_ready)) =
      [ (Some 3, u0, v_start); (Some 3, u1, v_start);
        (Some 3, u1, v_end); (Some 3, u0, v_end) ] /\
    (F32.to_Q v_end - F32.to_Q v_start == 3355443 # 33554432)%Q /\
    (F32.to_Q (wf_span render_waterfall_only) == 13421773 # 134217728)%Q /\
    ~ (F32.to_Q v_end - F32.to_Q v_start
         == F32.to_Q (wf_span render_waterfall_only))%Q.
Proof.
  do 4 eexists. split; [reflexivity|]. split; [reflexivity|].
  split; [vm_compute; reflexivity|].
  split; [apply Qeq_bool_eq; vm_compute; reflexivity|].
  split; [apply Qeq_bool_eq; vm_compute; reflexivity|].
  intros Hq. apply Qeq_bool_iff in Hq. vm_compute in Hq. discriminate.
Qed.

Lemma draw_layer_order_witness :
  gl self_ready = Some state_ready /\
  firstn 8 (layers
    (calls (fosphor_gl_draw self_ready render_full world_ready))) =
    [ textured_quad 3; flat_quad; polyline 1; polyline 1025;
      grid_line; grid_line; label; label ].
Proof.
  split; [reflexivity|].
  rewrite (draw_layer_order self_ready state_ready render_full world_ready
             eq_refl).
  reflexivity.
Defined.

(** C2, as stated, fails: with the waterfall alone requested, a visual
    layer is requested, yet the frame is the waterfall quad and nothing
    else: no histogram quad and no background quad (not "exactly one"),
    no grid line and no label. *)
Lemma waterfall_only_draws_no_grid :
  has render_waterfall_only FRO_WATERFALL = true /\
  layers (calls (fosphor_gl_draw self_ready render_waterfall_only
                   world_ready)) =
    [ textured_quad (tex_waterfall state_ready) ] /\
  tex_waterfall state_ready <> tex_histogram state_ready /\
  ~ In grid_line
      (layers (calls (fosphor_gl_draw self_ready render_waterfall_only
                        world_ready))) /\
  ~ In flat_quad
      (layers (calls (fosphor_gl_draw self_ready render_waterfall_only
                        world_ready))) /\
  ~ In (textured_quad (tex_histogram state_ready))
      (layers (calls (fosphor_gl_draw self_ready render_waterfall_only
                        world_ready))).
Proof.
  assert (E : layers (calls (fosphor_gl_draw self_ready
                render_waterfall_only world_ready)) =
              [ textured_quad (tex_waterfall state_ready) ])
    by (vm_compute; reflexivity).
  rewrite E. repeat split; try reflexivity; try discriminate;
    intros [Hin|[]]; discriminate.
Qed.

Lemma grid_lines_and_labels_witness :
  gl self_ready = Some state_ready /\
  has render_full FRO_LIVE = true /\
  length (line_segments
    (calls (fosphor_gl_draw self_ready render_full world_ready))) = 22%nat /\
  (snd <$> labels
    (calls (fosphor_gl_draw self_ready render_full world_ready))) =
    flat_map (fun i => [ text_int (10 * i - 100);
                         text_axis {| axis_center := center demo_frequency;
                                      axis_span := span demo_frequency |}
                           (i - 5) ])
      [0; 1; 2; 3; 4; 5; 6; 7; 8; 9; 10].
Proof.
  assert (Hlive : has render_full FRO_LIVE = true) by reflexivity.
  split; [reflexivity|]. split; [exact Hlive|].
  destruct (grid_lines_and_labels self_ready state_ready render_full
              world_ready eq_refl (or_introl Hlive)) as (Hs & Hl & _).
  rewrite Hs, Hl. split; reflexivity.
Defined.

Lemma shared_id_idempotent_witness :
  (gl self_constructed = Some state_constructed /\
   init_complete state_constructed = 0 /\
   env_map_buffer (env world_constructed) = true) /\
  exists (self1 : fosphor) (g1 : fosphor_gl_state),
    let first := fosphor_gl_get_shared_id self_constructed 2
                   world_constructed in
    gl self1 = Some g1 /\
    outcome first = Ok (handle_of g1 2, self1) /\
    created (calls first) =
      [ obj_texture (tex_waterfall g1); obj_texture (tex_histogram g1);
        obj_buffer (vbo_spectrum g1) ] /\
    get_shared_ids self1 [0; 1; 2; 7; 2; 0] (after first) =
      Run (Ok (map (handle_of g1) [0; 1; 2; 7; 2; 0], self1)) (after first) [].
Proof.
  split; [repeat split|].
  exact (shared_id_idempotent self_constructed state_constructed
           world_constructed 2 [0; 1; 2; 7; 2; 0] eq_refl eq_refl eq_refl).
Defined.

Lemma unknown_id_gives_zero_witness :
  (gl self_constructed = Some state_constructed /\
   env_map_buffer (env world_constructed) = true /\
   7 <> GL_ID_TEX_WATERFALL /\ 7 <> GL_ID_TEX_HISTOGRAM /\
   7 <> GL_ID_VBO_SPECTRUM) /\
  exists self' : fosphor,
    outcome (fosphor_gl_get_shared_id self_constructed 7 world_constructed)
      = Ok (0, self').
Proof.
  assert (H0 : 7 <> GL_ID_TEX_WATERFALL) by discriminate.
  assert (H1 : 7 <> GL_ID_TEX_HISTOGRAM) by discriminate.
  assert (H2 : 7 <> GL_ID_VBO_SPECTRUM) by discriminate.
  split; [repeat split; assumption|].
  exact (unknown_id_gives_zero self_constructed state_constructed
           world_constructed 7 eq_refl
           (or_intror (eq_refl : env_map_buffer (env world_constructed) = true))
           H0 H1 H2).
Defined.

Lemma shared_id_makes_ready_witness :
  (gl self_constructed = Some state_constructed /\
   consistent state_constructed world_constructed /\
   env_map_buffer (env world_constructed) = true) /\
  exists (h : Z) (self' : fosphor) (g' : fosphor_gl_state),
    outcome (fosphor_gl_get_shared_id self_constructed 7 world_constructed)
      = Ok (h, self') /\
    gl self' = Some g' /\
    gpu_ready g'
      (after (fosphor_gl_get_shared_id self_constructed 7 world_constructed)).
Proof.
  assert (Hc : consistent state_constructed world_constructed)
    by (intros Hset; exfalso; apply Hset; reflexivity).
  split; [split; [reflexivity | split; [exact Hc | reflexivity]]|].
  exact (shared_id_makes_ready self_constructed state_constructed
           world_constructed 7 eq_refl Hc eq_refl).
Defined.

Lemma release_reverses_creation_witness :
  (gl self_blank = None /\ all_succeed (env world_empty)) /\
  fosphor_gl_release self_blank world_empty = Run (Ok self_blank) world_empty [] /\
  exists (self1 self2 : fosphor) (hs : list Z) (g2 : fosphor_gl_state),
    let r1 := fosphor_gl_init self_blank world_empty in
    let r2 := get_shared_ids self1 [2; 0] (after r1) in
    let r3 := fosphor_gl_release self2 (after r2) in
    outcome r1 = Ok (0, self1) /\
    outcome r2 = Ok (hs, self2) /\
    gl self2 = Some g2 /\
    outcome r3 = Ok (set_gl self2 None) /\
    calls r3 =
      [ glDeleteBuffers (vbo_spectrum g2);
        glDeleteTextures (tex_histogram g2);
        glDeleteTextures (tex_waterfall g2);
        glDeleteTextures (cmap_histogram g2);
        glDeleteTextures (cmap_waterfall g2);
        fosphor_gl_cmap_release (cmap_ctx g2);
        glf_free (font g2);
        free ] /\
    destroyed (calls r3) = rev (created (calls r1 ++ calls r2)) /\
    after r3 = world_empty /\
    fosphor_gl_release (set_gl self2 None) (after r3) =
      Run (Ok (set_gl self2 None)) (after r3) [].
Proof.
  assert (Ha : all_succeed (env world_empty))
    by (repeat split; eexists; reflexivity).
  split; [split; [reflexivity | exact Ha]|].
  exact (release_reverses_creation self_blank world_empty [2; 0] eq_refl Ha).
Defined.

(** The renderer used above is the one the API produces. *)
Lemma self_ready_is_reached :
  fosphor_gl_init self_blank world_empty =
    Run (Ok (0, self_constructed)) world_constructed
        (init_calls state_constructed 117072) /\
  outcome (fosphor_gl_get_shared_id self_constructed 2 world_constructed)
    = Ok (1, self_ready) /\
  after (fosphor_gl_get_shared_id self_constructed 2 world_constructed)
    = world_ready.
Proof. repeat split; vm_compute; reflexivity. Qed.

End Examples.

(** ** The further theorems at work *)

Section MoreExamples.

#[local] Existing Instance fosphor_headers.

Lemma draw_respects_gl_protocol_witness :
  gl self_ready = Some state_ready /\
  exists s1 : gl_track,
    track track_idle
      (calls (fosphor_gl_draw self_ready render_full world_ready)) = Some s1 /\
    matrix_depth s1 = 0%nat /\
    primitive s1 = false /\ colormap s1 = false /\
    vertex_array s1 = false /\ text s1 = false.
Proof.
  split; [reflexivity|].
  exact (draw_respects_gl_protocol self_ready state_ready render_full
           world_ready track_idle eq_refl eq_refl eq_refl eq_refl eq_refl).
Defined.

Lemma draw_leaves_line_smoothing_enabled_witness :
  gl self_ready = Some state_ready /\
  exists s1 : gl_track,
    track track_idle
      (calls (fosphor_gl_draw self_ready render_full world_ready)) = Some s1 /\
    line_smooth s1 = true /\ blend s1 = false.
Proof.
  split; [reflexivity|].
  exact (draw_leaves_line_smoothing_enabled self_ready state_ready
           render_full world_ready track_idle
           eq_refl eq_refl eq_refl eq_refl eq_refl).
Defined.

Lemma quads_are_viewport_rectangles_witness :
  gl self_ready = Some state_ready /\
  map (map snd)
    (quads (calls (fosphor_gl_draw self_ready render_full world_ready))) =
    [ [ (F32.of_Z 10, F32.of_Z 10); (F32.of_Z 810, F32.of_Z 10);
        (F32.of_Z 810, F32.of_Z 300); (F32.of_Z 10, F32.of_Z 300) ];
      [ (F32.of_Z 10, F32.of_Z 310); (F32.of_Z 810, F32.of_Z 310);
        (F32.of_Z 810, F32.of_Z 610); (F32.of_Z 10, F32.of_Z 610) ] ].
Proof.
  split; [reflexivity|].
  rewrite (quads_are_viewport_rectangles self_ready state_ready render_full
             world_ready eq_refl).
  reflexivity.
Defined.

Lemma clear_tiles_partition_witness :
  (40 <= INT_MAX - 15 /\ 20 <= INT_MAX - 15) /\
  upload_tiles (calls (gl_tex2d_float_clear 3 40 20 world_ready)) =
    [ (0, 0, 16, 16); (16, 0, 16, 16); (32, 0, 8, 16);
      (0, 16, 16, 4); (16, 16, 16, 4); (32, 16, 8, 4) ] /\
  let ts := upload_tiles (calls (gl_tex2d_float_clear 3 40 20 world_ready)) in
  NoDup ts /\
  (forall t, t ∈ ts -> tile_fits 40 20 t) /\
  (forall px py : Z, 0 <= px < 40 -> 0 <= py < 20 ->
     exists t, t ∈ ts /\ covers t px py /\
               forall t', t' ∈ ts -> covers t' px py -> t' = t).
Proof.
  assert (H1 : 40 <= INT_MAX - 15) by (unfold INT_MAX; lia).
  assert (H2 : 20 <= INT_MAX - 15) by (unfold INT_MAX; lia).
  split; [split; assumption|]. split; [reflexivity|].
  exact (clear_tiles_partition 3 40 20 world_ready H1 H2).
Defined.

Lemma clear_uploads_nothing_iff_empty_witness :
  (0 <= INT_MAX - 15 /\ 1024 <= INT_MAX - 15) /\
  upload_tiles (calls (gl_tex2d_float_clear 3 0 1024 world_ready)) = [].
Proof.
  assert (H1 : 0 <= INT_MAX - 15) by (unfold INT_MAX; lia).
  assert (H2 : 1024 <= INT_MAX - 15) by (unfold INT_MAX; lia).
  split; [split; assumption|].
  apply (clear_uploads_nothing_iff_empty 3 0 1024 world_ready H1 H2).
  left. lia.
Defined.



Lemma accessor_keeps_what_exists_witness :
  (gl self_constructed = Some state_constructed /\
   env_map_buffer (env world_constructed) = true) /\
  let r := fosphor_gl_get_shared_id self_constructed 0 world_constructed in
  exists (h : Z) (self1 : fosphor) (g1 : fosphor_gl_state),
    outcome r = Ok (h, self1) /\ gl self1 = Some g1 /\
    destroyed (calls r) = [] /\
    keeps_objects world_constructed (after r) /\
    fonts (after r) = fonts world_constructed /\
    cmap_ctxs (after r) = cmap_ctxs world_constructed /\
    env (after r) = env world_constructed /\
    power self1 = power self_constructed /\
    frequency self1 = frequency self_constructed /\
    font g1 = font state_constructed /\
    cmap_ctx g1 = cmap_ctx state_constructed /\
    cmap_waterfall g1 = cmap_waterfall state_constructed /\
    cmap_histogram g1 = cmap_histogram state_constructed.
Proof.
  split; [split; reflexivity|].
  exact (accessor_keeps_what_exists self_constructed state_constructed
           world_constructed 0 eq_refl
           (or_intror (eq_refl : env_map_buffer (env world_constructed) = true))).
Defined.

Lemma first_call_returns_new_name_witness :
  (gl self_constructed = Some state_constructed /\
   init_complete state_constructed = 0 /\
   env_map_buffer (env world_constructed) = true) /\
  let r := fosphor_gl_get_shared_id self_constructed 1 world_constructed in
  exists (h : Z) (self1 : fosphor),
    outcome r = Ok (h, self1) /\
    (1 = GL_ID_TEX_WATERFALL \/ 1 = GL_ID_TEX_HISTOGRAM ->
       0 < h /\ ~ live h (textures world_constructed) /\
       live h (textures (after r))) /\
    (1 = GL_ID_VBO_SPECTRUM ->
     1 <> GL_ID_TEX_WATERFALL -> 1 <> GL_ID_TEX_HISTOGRAM ->
       0 < h /\ ~ live h (buffers world_constructed) /\
       live h (buffers (after r))).
Proof.
  split; [repeat split; reflexivity|].
  exact (first_call_returns_new_name self_constructed state_constructed
           world_constructed 1 eq_refl eq_refl eq_refl).
Defined.

Lemma map_failure_aborts_after_creation_witness :
  (gl self_constructed = Some state_constructed /\
   init_complete state_constructed = 0 /\
   env_map_buffer (env world_unmappable) = false) /\
  let r := fosphor_gl_get_shared_id self_constructed 2 world_unmappable in
  outcome r = Crash Aborted /\
  last (calls r) = Some (glMapBuffer GL_ARRAY_BUFFER GL_WRITE_ONLY false) /\
  destroyed (calls r) = [] /\
  exists t1 t2 b : Z,
    created (calls r) = [obj_texture t1; obj_texture t2; obj_buffer b] /\
    t1 <> t2 /\
    ~ live t1 (textures world_unmappable) /\
    ~ live t2 (textures world_unmappable) /\
    ~ live b (buffers world_unmappable) /\
    live t1 (textures (after r)) /\ live t2 (textures (after r)) /\
    live b (buffers (after r)).
Proof.
  split; [repeat split; reflexivity|].
  exact (map_failure_aborts_after_creation self_constructed
           state_constructed world_unmappable 2 eq_refl eq_refl eq_refl).
Defined.

Lemma release_frees_only_its_block_witness :
  gl self_ready = Some state_ready /\
  let w' := after (fosphor_gl_release self_ready world_ready) in
  (forall n, live n (textures w') <->
     live n (textures world_ready) /\
     n <> tex_histogram state_ready /\ n <> tex_waterfall state_ready /\
     n <> cmap_histogram state_ready /\ n <> cmap_waterfall state_ready) /\
  (forall n, live n (buffers w') <->
     live n (buffers world_ready) /\ n <> vbo_spectrum state_ready) /\
  (forall n, live n (fonts w') <->
     live n (fonts world_ready) /\ n <> font state_ready) /\
  (forall n, live n (cmap_ctxs w') <->
     live n (cmap_ctxs world_ready) /\ n <> cmap_ctx state_ready) /\
  env w' = env world_ready.
Proof.
  split; [reflexivity|].
  exact (release_frees_only_its_block self_ready state_ready world_ready
           eq_refl).
Defined.

Lemma use_after_release_faults_witness :
  has render_full FRO_LIVE = true /\
  let r := fosphor_gl_release self_ready world_ready in
  exists self1 : fosphor,
    outcome r = Ok self1 /\ gl self1 = None /\
    fosphor_gl_get_shared_id self1 2 (after r) =
      Run (Crash NullDeref) (after r) [] /\
    outcome (fosphor_gl_draw self1 render_full (after r)) = Crash NullDeref.
Proof.
  assert (Hl : has render_full FRO_LIVE = true) by reflexivity.
  split; [exact Hl|].
  exact (use_after_release_faults self_ready render_full world_ready 2
           (or_intror (or_intror (or_introl Hl)))).
Defined.

Lemma second_init_leaks_first_witness :
  all_succeed (env world_empty) /\
  let r1 := fosphor_gl_init self_blank world_empty in
  exists (self1 self2 : fosphor) (g1 g2 : fosphor_gl_state),
    let r2 := fosphor_gl_init self1 (after r1) in
    let r3 := fosphor_gl_release self2 (after r2) in
    outcome r1 = Ok (0, self1) /\ gl self1 = Some g1 /\
    outcome r2 = Ok (0, self2) /\ gl self2 = Some g2 /\
    destroyed (calls r2) = [] /\
    (~ live (font g2) (fonts (after r1)) /\
     ~ live (cmap_ctx g2) (cmap_ctxs (after r1)) /\
     ~ live (cmap_waterfall g2) (textures (after r1)) /\
     ~ live (cmap_histogram g2) (textures (after r1))) /\
    host_ready g1 (after r2) /\ host_ready g2 (after r2) /\
    outcome r3 = Ok (set_gl self2 None) /\
    after r3 = after r1 /\
    host_ready g1 (after r3).
Proof.
  assert (Ha : all_succeed (env world_empty))
    by (repeat split; eexists; reflexivity).
  split; [exact Ha|].
  exact (second_init_leaks_first self_blank world_empty Ha).
Defined.

End MoreExamples.
